(** * The prediction request pipeline of app.py

    A shallow embedding of the Flask application [src/app.py]: the model
    loading block that runs at import time, the [/api/predict] handler and
    the [/api/info] handler, followed by the properties of the
    specification that were checked against it.

    Conventions.
    - A Python expression that may raise is a value of [result A]: [inl msg]
      is a raised [Exception] whose [str(e)] is [msg], [inr a] is the value.
    - The decoded request body is a [value]: what [json.loads] builds.
    - A finite binary64 number is the rational [Q] it stands for. The
      probabilities a classifier reports are finite; their product with 100
      is rounded to binary64 as the hardware does ([Py.binary64]), overflow
      to an infinity included.
    - The confidence of a response is the decimal that [round(_, 2)]
      computes. The float that Python returns is the binary64 nearest to
      this decimal, and the JSON body prints that float with the fewest
      digits that identify it: the digits of this decimal, as long as it has
      at most 15 significant ones.
    - numpy and the classifier are collaborators: the conversion
      [np.array(features).reshape(1, -1)] and the two methods of the model
      are parameters of the handler. *)

From Stdlib Require Import String Ascii List ZArith QArith Qabs Qpower Bool Lia Lqa
  DecimalString.
Import ListNotations.

Set Warnings "-register-all".

Local Open Scope string_scope.
Local Open Scope Z_scope.

(** ** Exceptions and call traces *)

Class Monad (M : Type -> Type) : Type := {
  ret : forall {A}, A -> M A;
  bind : forall {A B}, M A -> (A -> M B) -> M B
}.

Declare Scope py_scope.
Delimit Scope py_scope with py.
Notation "x <- c ;; k" := (bind c (fun x => k))
  (at level 61, c at next level, right associativity) : py_scope.
Local Open Scope py_scope.

(** [inl msg]: an exception was raised, [str(e) = msg]. *)
Definition result (A : Type) : Type := (string + A)%type.

Definition raise {A} (msg : string) : result A := inl msg.

#[export] Instance Monad_result : Monad result := {
  ret := fun A a => inr a;
  bind := fun A B c k => match c with inl e => inl e | inr a => k a end
}.

(** ** Python values *)

Module Py.

(** A Python float: a finite number, or one of the three values that
    [json.loads] builds from [NaN], [Infinity] and [-Infinity]. *)
Inductive pyfloat : Type :=
| Finite (q : Q)
| NaN
| PosInf
| NegInf.

(** The objects [request.get_json()] can return. A [Dict] lists the items
    of the dictionary, keys distinct. *)
Inductive value : Type :=
| None_
| Bool (b : bool)
| Int (z : Z)
| Float (f : pyfloat)
| Str (s : string)
| List (xs : list value)
| Dict (items : list (string * value)).

Definition type_name (v : value) : string :=
  match v with
  | None_ => "NoneType"
  | Bool _ => "bool"
  | Int _ => "int"
  | Float _ => "float"
  | Str _ => "str"
  | List _ => "list"
  | Dict _ => "dict"
  end.

(** [bool(v)], as used by [not data]. *)
Definition truthy (v : value) : bool :=
  match v with
  | None_ => false
  | Bool b => b
  | Int z => negb (z =? 0)
  | Float (Finite q) => negb (Qeq_bool q 0)
  | Float _ => true
  | Str s => negb (String.eqb s "")
  | List xs => match xs with [] => false | _ => true end
  | Dict items => match items with [] => false | _ => true end
  end.

Fixpoint lookup (key : string) (items : list (string * value)) : option value :=
  match items with
  | [] => None
  | (k, v) :: rest => if String.eqb k key then Some v else lookup key rest
  end.

Definition is_str (key : string) (v : value) : bool :=
  match v with
  | Str s => String.eqb s key
  | _ => false
  end.

Definition substring_of (key s : string) : bool :=
  match String.index 0 key s with
  | Some _ => true
  | None => false
  end.

(** [key in v] for a string [key]: key membership on a dict, element
    membership on a list, substring test on a str, [TypeError] on the
    rest. *)
Definition contains (v : value) (key : string) : result bool :=
  match v with
  | Dict items => ret (match lookup key items with Some _ => true | None => false end)
  | List xs => ret (existsb (is_str key) xs)
  | Str s => ret (substring_of key s)
  | _ => raise ("argument of type '" ++ type_name v ++ "' is not iterable")
  end.

(** [v[key]] for a string [key]. *)
Definition getitem (v : value) (key : string) : result value :=
  match v with
  | Dict items =>
      match lookup key items with
      | Some x => ret x
      | None => raise ("'" ++ key ++ "'")
      end
  | List _ => raise "list indices must be integers or slices, not str"
  | Str _ => raise "string indices must be integers, not 'str'"
  | _ => raise ("'" ++ type_name v ++ "' object is not subscriptable")
  end.

(** [len(v)]; the characters of a str are taken to be single bytes. *)
Definition len (v : value) : result nat :=
  match v with
  | List xs => ret (List.length xs)
  | Str s => ret (String.length s)
  | Dict items => ret (List.length items)
  | _ => raise ("object of type '" ++ type_name v ++ "' has no len()")
  end.

(** [str(n)] for a natural number, as an f-string prints it. *)
Definition str_of_nat (n : nat) : string :=
  NilEmpty.string_of_uint (Nat.to_uint n).

(** [xs[0]] on a sequence returned by the classifier. *)
Definition index0 {A} (xs : list A) : result A :=
  match xs with
  | x :: _ => ret x
  | [] => raise "index 0 is out of bounds for axis 0 with size 0"
  end.

(** [max(xs)]: the first largest element; [ValueError] on an empty
    sequence. *)
Definition larger (m y : Q) : Q := if Qle_bool y m then m else y.

Definition max (xs : list Q) : result Q :=
  match xs with
  | [] => raise "max() arg is an empty sequence"
  | x :: rest => ret (fold_left larger rest x)
  end.

(** Rounding to the nearest integer, ties to the even one. *)
Definition round_half_even (q : Q) : Z :=
  let n := Qnum q in
  let d := Zpos (Qden q) in
  let f := n / d in
  match (2 * (n mod d) ?= d) with
  | Lt => f
  | Gt => f + 1
  | Eq => if Z.even f then f else f + 1
  end.

(** [round(q, ndigits)] on a finite float: the decimal with [ndigits]
    places nearest to the exact value of [q], ties to the even digit; the
    result is kept in lowest terms. *)
Definition round (q : Q) (ndigits : nat) : Q :=
  let scale := Z.to_pos (10 ^ Z.of_nat ndigits) in
  Qred (Qmake (round_half_even (q * inject_Z (Zpos scale))) scale).

(** [round(f, ndigits)] on any float: NaN and the infinities round to
    themselves. *)
Definition round_float (f : pyfloat) (ndigits : nat) : pyfloat :=
  match f with
  | Finite q => Finite (round q ndigits)
  | _ => f
  end.

(** [a <= b] on floats; every comparison with NaN is false. *)
Definition float_le (a b : pyfloat) : Prop :=
  match a, b with
  | NaN, _ | _, NaN => False
  | NegInf, _ => True
  | _, PosInf => True
  | Finite x, Finite y => (x <= y)%Q
  | _, _ => False
  end.

(** *** Rounding a real number to binary64 *)

(** For [x > 0], the exponent [e] with [2^e <= x < 2^(e+1)]. *)
Definition floor_log2 (x : Q) : Z :=
  let n := Qnum x in
  let d := Zpos (Qden x) in
  let a := Z.log2 n in
  let b := Z.log2 d in
  if d * 2 ^ a <=? n * 2 ^ b then a - b else a - b - 1.

(** The exponent of the last place of the binary64 numbers around [x]: a
    significand of 53 bits, and no exponent below that of the subnormal
    numbers. *)
Definition ulp_exponent (x : Q) : Z :=
  Z.max (floor_log2 (Qabs x) - 52) (-1074).

(** The multiple of [2^k] nearest to [x], ties to the even multiple. *)
Definition nearest (k : Z) (x : Q) : Q :=
  (inject_Z (round_half_even (x * 2 ^ (- k))) * 2 ^ k)%Q.

(** [x] rounded to 53 significant bits, exponent unbounded above. *)
Definition rounded (x : Q) : Q := nearest (ulp_exponent x) x.

(** The binary64 result of an operation whose exact result is [x]:
    rounding to nearest, ties to even, overflow to the infinities. *)
Definition binary64 (x : Q) : pyfloat :=
  let y := rounded x in
  if Qle_bool (2 ^ 1024) y then PosInf
  else if Qle_bool y (- 2 ^ 1024) then NegInf
  else Finite (Qred y).

End Py.

(** ** numpy arrays and the classifier *)

(** What [np.array(features).reshape(1, -1)] returns: a float64 row of
    shape (1, n), or an array of another dtype (strings, objects) built from
    the given value. *)
Inductive ndarray : Type :=
| FloatRow (row : list Py.pyfloat)
| ObjectArray (v : Py.value).

(** The object stored in the model artifact, seen through the two methods
    the handler uses. [model_predict] is [model.predict];
    [model_predict_proba] is [None] when [hasattr(model, 'predict_proba')]
    is false. Both return one entry per row of the input. *)
Record Classifier : Type := {
  model_predict : ndarray -> result (list Z);
  model_predict_proba : option (ndarray -> result (list (list Q)))
}.

(** A call made on the classifier. *)
Inductive call : Type :=
| CallPredict (X : ndarray)
| CallPredictProba (X : ndarray).

(** A computation that may raise and that records the calls it made on the
    classifier, the ones before the exception included. *)
Definition traced (A : Type) : Type := (result A * list call)%type.

#[export] Instance Monad_traced : Monad traced := {
  ret := fun A a => (inr a, []);
  bind := fun A B c k =>
    match c with
    | (inl e, t) => (inl e, t)
    | (inr a, t) => let (r, t') := k a in (r, (t ++ t')%list)
    end
}.

Definition lift {A} (r : result A) : traced A := (r, []).

Definition call_predict (m : Classifier) (X : ndarray) : traced (list Z) :=
  (model_predict m X, [CallPredict X]).

Definition call_predict_proba (proba : ndarray -> result (list (list Q)))
  (X : ndarray) : traced (list (list Q)) :=
  (proba X, [CallPredictProba X]).

(** ** Responses *)

(** The JSON objects the handlers pass to [jsonify]. *)
Inductive body : Type :=
| PredictionBody (diagnosis : string) (confidence : Py.pyfloat) (prediction : Z)
| ErrorBody (error : string)
| InfoBody (name version : string) (features : list string) (model_loaded : bool).

(** A response: the JSON body and the HTTP status. *)
Definition response : Type := (body * Z)%type.

(** [jsonify(b)] alone is a 200 response; [jsonify(b), status] carries its
    status. *)
Definition jsonify (b : body) : response := (b, 200).

Definition error (msg : string) (status : Z) : response := (ErrorBody msg, status).

Definition status (r : response) : Z := snd r.

Definition dquote : string := String (ascii_of_nat 34) EmptyString.

Definition msg_invalid_request : string :=
  "Invalid request. Expected " ++ dquote ++ "features" ++ dquote ++ " array.".

Definition msg_model_not_loaded : string :=
  "Model not loaded. Please check server configuration.".

(** ** The prediction endpoint *)

Section Predict.

(** [np.array(features).reshape(1, -1)], which may raise. *)
Variable np_array_reshape : Py.value -> result ndarray.

(** Line 106: the label convention. *)
Definition diagnosis_of (prediction : Z) : string :=
  if prediction =? 1 then "Malignant" else "Benign".

(** Lines 94-112: the body of the inner [try] around the classifier. *)
Definition make_prediction (model : Classifier) (X : ndarray) : traced body :=
  ys <- call_predict model X ;;
  prediction <- lift (Py.index0 ys) ;;
  confidence <-
    match model_predict_proba model with
    | Some proba =>
        rows <- call_predict_proba proba X ;;
        probabilities <- lift (Py.index0 rows) ;;
        p <- lift (Py.max probabilities) ;;
        ret (Py.binary64 (p * 100))
    | None => ret (Py.Finite 100)
    end ;;
  let diagnosis := diagnosis_of prediction in
  ret (PredictionBody diagnosis (Py.round_float confidence 2) prediction).

(** Lines 73-117: from the length check on, for the [features] taken from
    the request. Each [return] of the source is a response; what the outer
    [except] would catch is an [inl]. *)
Definition predict_features (model : option Classifier) (features : Py.value)
  : traced response :=
  n <- lift (Py.len features) ;;
  if negb (Nat.eqb n 8) then
    ret (error ("Expected 8 features, got " ++ Py.str_of_nat n) 400)
  else
    match model with
    | None => ret (error msg_model_not_loaded 500)
    | Some m =>
        match np_array_reshape features with
        | inl e => ret (error ("Invalid feature values: " ++ e) 400)
        | inr X =>
            match make_prediction m X with
            | (inr b, t) => (inr (jsonify b), t)
            | (inl e, t) => (inr (error ("Prediction error: " ++ e) 500), t)
            end
        end
    end.

(** Lines 64-117: the body of the outer [try]. *)
Definition predict_body (model : option Classifier) (get_json : result Py.value)
  : traced response :=
  data <- lift get_json ;;
  missing <- lift (if negb (Py.truthy data) then ret true
                   else present <- Py.contains data "features" ;; ret (negb present)) ;;
  if (missing : bool) then ret (error msg_invalid_request 400)
  else
    features <- lift (Py.getitem data "features") ;;
    predict_features model features.

(** Lines 119-122: what the outer [except] makes of the body. *)
Definition caught (c : traced response) : response * list call :=
  match c with
  | (inr r, t) => (r, t)
  | (inl e, t) => (error ("Server error: " ++ e) 500, t)
  end.

(** [predict()]: the handler of [POST /api/predict], with the response it
    returns and the calls it made on the classifier. [get_json] is what
    [request.get_json()] evaluates to. *)
Definition predict (model : option Classifier) (get_json : result Py.value)
  : response * list call :=
  caught (predict_body model get_json).

End Predict.

(** ** The error taxonomy

    The source carries no kind field: a failed request is a JSON object with
    an [error] message and a status. Each kind of the specification is the
    message of one [return] of the handler; a response caught by the outer
    [except] ("Server error: ...") has no kind in the taxonomy. *)

Inductive ErrorKind : Type :=
| MalformedRequest
| WrongFeatureCount
| InvalidFeatureValue
| ModelUnavailable
| InferenceFailure.

Fixpoint starts_with (p s : string) : bool :=
  match p with
  | EmptyString => true
  | String a p' =>
      match s with
      | EmptyString => false
      | String b s' => Ascii.eqb a b && starts_with p' s'
      end
  end.

Definition kind_of_message (msg : string) : option ErrorKind :=
  if String.eqb msg msg_invalid_request then Some MalformedRequest
  else if starts_with "Expected 8 features, got " msg then Some WrongFeatureCount
  else if String.eqb msg msg_model_not_loaded then Some ModelUnavailable
  else if starts_with "Invalid feature values: " msg then Some InvalidFeatureValue
  else if starts_with "Prediction error: " msg then Some InferenceFailure
  else None.

Definition kind (r : response) : option ErrorKind :=
  match fst r with
  | ErrorBody msg => kind_of_message msg
  | _ => None
  end.

(** ** Loading the model at start-up *)

(** The machine as the loading block sees it: [Path.exists()];
    [joblib.load], which returns the unpickled object ([None] included) or
    raises; and [print], which raises when the standard output refuses the
    text (an encoding without the glyphs of the three messages, a closed
    pipe). *)
Record host : Type := {
  path_exists : string -> result bool;
  joblib_load : string -> result (option Classifier);
  print : string -> result unit
}.

(** The line the loading block prints. *)
Inductive diagnostic : Type :=
| LoadedFrom (path : string)
| NoModelFile
| LoadError (e : string).

Definition utf8 (a b c : nat) : string :=
  String (ascii_of_nat a) (String (ascii_of_nat b) (String (ascii_of_nat c) EmptyString)).

(** The glyphs U+2713, U+26A0 and U+2717 that open the three messages, in
    UTF-8. *)
Definition check_mark : string := utf8 226 156 147.

Definition warning_sign : string := utf8 226 154 160.

Definition ballot_x : string := utf8 226 156 151.

(** The text of each line (lines 23, 29, 32 and 35). *)
Definition line (d : diagnostic) : string :=
  match d with
  | LoadedFrom path => check_mark ++ " Model loaded successfully from " ++ path
  | NoModelFile => warning_sign ++ " Warning: No model file found"
  | LoadError e => ballot_x ++ " Error loading model: " ++ e
  end.

(** Paths relative to the directory of app.py. *)
Definition MODEL_PATH : string := "model/breast_cancer_model.pkl".

Definition root_model : string := "model.pkl".

(** Lines 20-32: the body of the [try]: the value assigned to [model] and
    the line printed after it. *)
Definition load_body (h : host) : result (option Classifier * diagnostic) :=
  primary <- path_exists h MODEL_PATH ;;
  if (primary : bool) then
    model <- joblib_load h MODEL_PATH ;;
    printed <- print h (line (LoadedFrom MODEL_PATH)) ;;
    ret (model, LoadedFrom MODEL_PATH)
  else
    fallback <- path_exists h root_model ;;
    if (fallback : bool) then
      model <- joblib_load h root_model ;;
      printed <- print h (line (LoadedFrom root_model)) ;;
      ret (model, LoadedFrom root_model)
    else
      printed <- print h (line NoModelFile) ;;
      ret (None, NoModelFile).

(** Lines 19-35: the import of the module. [inr (model, d)]: the module is
    imported, the global [model] has this value and [d] was the last line
    printed. [inl e]: the exception [e] left the module, raised by the
    [print] of the [except] block; the process does not start. *)
Definition load_model (h : host) : result (option Classifier * diagnostic) :=
  match load_body h with
  | inr r => ret r
  | inl e =>
      printed <- print h (line (LoadError e)) ;;
      ret (None, LoadError e)
  end.

(** The resolver in the words of the specification, to compare
    [load_model] with: the artifact of the primary location when it is
    there, else the one of the fallback location; no handle when both are
    missing, and no handle when a check or the deserialization fails. Each
    outcome comes with the diagnostic recorded for it. *)
Inductive load_fails (h : host) (e : string) : Prop :=
| primary_check_fails :
    path_exists h MODEL_PATH = inl e -> load_fails h e
| primary_load_fails :
    path_exists h MODEL_PATH = inr true ->
    joblib_load h MODEL_PATH = inl e -> load_fails h e
| fallback_check_fails :
    path_exists h MODEL_PATH = inr false ->
    path_exists h root_model = inl e -> load_fails h e
| fallback_load_fails :
    path_exists h MODEL_PATH = inr false ->
    path_exists h root_model = inr true ->
    joblib_load h root_model = inl e -> load_fails h e.

Inductive resolves (h : host) : option Classifier * diagnostic -> Prop :=
| resolve_primary m :
    path_exists h MODEL_PATH = inr true ->
    joblib_load h MODEL_PATH = inr m ->
    resolves h (m, LoadedFrom MODEL_PATH)
| resolve_fallback m :
    path_exists h MODEL_PATH = inr false ->
    path_exists h root_model = inr true ->
    joblib_load h root_model = inr m ->
    resolves h (m, LoadedFrom root_model)
| resolve_missing :
    path_exists h MODEL_PATH = inr false ->
    path_exists h root_model = inr false ->
    resolves h (None, NoModelFile)
| resolve_failed e :
    load_fails h e ->
    resolves h (None, LoadError e).

(** ** The info endpoint and the running application *)

Definition FEATURE_NAMES : list string :=
  [ "radius_mean"; "texture_mean"; "perimeter_mean"; "area_mean";
    "smoothness_mean"; "compactness_mean"; "concavity_mean"; "symmetry_mean" ].

(** [model is not None]. *)
Definition is_loaded (model : option Classifier) : bool :=
  match model with
  | Some _ => true
  | None => false
  end.

(** [info()]: the handler of [GET /api/info]. *)
Definition info (model : option Classifier) : response :=
  jsonify (InfoBody "Breast Cancer Prediction API" "1.0.0" FEATURE_NAMES (is_loaded model)).

Inductive request : Type :=
| GetInfo
| PostPredict (get_json : result Py.value).

Section Application.

Variable np_array_reshape : Py.value -> result ndarray.

(** One request against the global [model]: the response, the calls made on
    the classifier, and the global after the request. No handler assigns
    [model]. *)
Definition handle (model : option Classifier) (r : request)
  : option Classifier * (response * list call) :=
  match r with
  | GetInfo => (model, (info model, []))
  | PostPredict get_json => (model, predict np_array_reshape model get_json)
  end.

(** The requests of a run, served one after the other. *)
Fixpoint serve (model : option Classifier) (rs : list request)
  : list (response * list call) :=
  match rs with
  | [] => []
  | r :: rest =>
      let (model', out) := handle model r in
      out :: serve model' rest
  end.

(** The process: import the module, then serve; no request is served when
    the import raises. *)
Definition run (h : host) (rs : list request)
  : result (list (response * list call)) :=
  loaded <- load_model h ;;
  ret (serve (fst loaded) rs).

End Application.

(** ** A loaded object that keeps state

    [joblib.load] returns a Python object, and a method of an object can
    read and change what the object holds: a counter, a cache, the state of
    a random generator. Here the methods take the state [S] of the object
    and give it back, and the handler is written once more with that state
    passed from call to call. A [Classifier] is the object whose methods
    leave the state alone ([of_classifier]). *)

Record Estimator (S : Type) : Type := {
  estimator_predict : S -> ndarray -> result (list Z) * S;
  estimator_predict_proba : option (S -> ndarray -> result (list (list Q)) * S)
}.

Arguments estimator_predict {S}.
Arguments estimator_predict_proba {S}.

(** A computation on the state of the object, which may raise and records
    its calls. *)
Definition acting (S A : Type) : Type := S -> (result A * list call) * S.

#[export] Instance Monad_acting (S : Type) : Monad (acting S) := {
  ret := fun A a s => ((inr a, []), s);
  bind := fun A B c k s =>
    match c s with
    | ((inl e, t), s') => ((inl e, t), s')
    | ((inr a, t), s') =>
        match k a s' with
        | ((r, t'), s'') => ((r, (t ++ t')%list), s'')
        end
    end
}.

Definition lift_on {S A} (r : result A) : acting S A := fun s => ((r, []), s).

Definition of_classifier (c : Classifier) : Estimator unit := {|
  estimator_predict := fun s X => (model_predict c X, s);
  estimator_predict_proba :=
    match model_predict_proba c with
    | Some proba => Some (fun s X => (proba X, s))
    | None => None
    end
|}.

(** The methods answer the same for the same array, whatever the state of
    the object. *)
Definition repeatable {S} (est : Estimator S) : Prop :=
  (forall s s' X, fst (estimator_predict est s X) = fst (estimator_predict est s' X))
  /\ match estimator_predict_proba est with
     | Some proba => forall s s' X, fst (proba s X) = fst (proba s' X)
     | None => True
     end.

Section PredictOn.

Variable np_array_reshape : Py.value -> result ndarray.

Variable S : Type.

Definition call_predict_on (est : Estimator S) (X : ndarray) : acting S (list Z) :=
  fun s => let (r, s') := estimator_predict est s X in ((r, [CallPredict X]), s').

Definition call_predict_proba_on
  (proba : S -> ndarray -> result (list (list Q)) * S) (X : ndarray)
  : acting S (list (list Q)) :=
  fun s => let (r, s') := proba s X in ((r, [CallPredictProba X]), s').

(** Lines 94-112, on an object with state. *)
Definition make_prediction_on (model : Estimator S) (X : ndarray) : acting S body :=
  ys <- call_predict_on model X ;;
  prediction <- lift_on (Py.index0 ys) ;;
  confidence <-
    match estimator_predict_proba model with
    | Some proba =>
        rows <- call_predict_proba_on proba X ;;
        probabilities <- lift_on (Py.index0 rows) ;;
        p <- lift_on (Py.max probabilities) ;;
        ret (Py.binary64 (p * 100))
    | None => ret (Py.Finite 100)
    end ;;
  let diagnosis := diagnosis_of prediction in
  ret (PredictionBody diagnosis (Py.round_float confidence 2) prediction).

(** Lines 73-117, on an object with state. *)
Definition predict_features_on (model : option (Estimator S)) (features : Py.value)
  : acting S response :=
  n <- lift_on (Py.len features) ;;
  if negb (Nat.eqb n 8) then
    ret (error ("Expected 8 features, got " ++ Py.str_of_nat n) 400)
  else
    match model with
    | None => ret (error msg_model_not_loaded 500)
    | Some m =>
        match np_array_reshape features with
        | inl e => ret (error ("Invalid feature values: " ++ e) 400)
        | inr X =>
            fun s =>
              match make_prediction_on m X s with
              | ((inr b, t), s') => ((inr (jsonify b), t), s')
              | ((inl e, t), s') =>
                  ((inr (error ("Prediction error: " ++ e) 500), t), s')
              end
        end
    end.

(** Lines 64-117, on an object with state. *)
Definition predict_body_on (model : option (Estimator S)) (get_json : result Py.value)
  : acting S response :=
  data <- lift_on get_json ;;
  missing <- lift_on (if negb (Py.truthy data) then ret true
                      else present <- Py.contains data "features" ;; ret (negb present)) ;;
  if (missing : bool) then ret (error msg_invalid_request 400)
  else
    features <- lift_on (Py.getitem data "features") ;;
    predict_features_on model features.

(** [predict()] on an object with state: the response, the calls made, and
    the state the object is left in. *)
Definition predict_on (model : option (Estimator S)) (s : S)
  (get_json : result Py.value) : (response * list call) * S :=
  match predict_body_on model get_json s with
  | (c, s') => (caught c, s')
  end.

(** One request; [/api/info] does not touch the object. *)
Definition handle_on (model : option (Estimator S)) (s : S) (r : request)
  : (response * list call) * S :=
  match r with
  | GetInfo =>
      ((jsonify (InfoBody "Breast Cancer Prediction API" "1.0.0" FEATURE_NAMES
                   (match model with Some _ => true | None => false end)), []), s)
  | PostPredict get_json => predict_on model s get_json
  end.

(** The requests of a run, served one after the other on the same object. *)
Fixpoint serve_on (model : option (Estimator S)) (s : S) (rs : list request)
  : list (response * list call) :=
  match rs with
  | [] => []
  | r :: rest =>
      let (out, s') := handle_on model s r in
      out :: serve_on model s' rest
  end.

End PredictOn.

Arguments predict_on _ {S}.
Arguments handle_on _ {S}.
Arguments serve_on _ {S}.

(** ** Sample collaborators for concrete runs *)

Module Sample.

(** A Python number as the float numpy stores; [True] and [False] count as
    1 and 0. *)
Definition to_float (v : Py.value) : option Py.pyfloat :=
  match v with
  | Py.Int z => Some (Py.Finite (inject_Z z))
  | Py.Float f => Some f
  | Py.Bool b => Some (Py.Finite (if b then 1 else 0))
  | _ => None
  end.

Fixpoint to_floats (xs : list Py.value) : option (list Py.pyfloat) :=
  match xs with
  | [] => Some []
  | x :: rest =>
      match to_float x, to_floats rest with
      | Some f, Some fs => Some (f :: fs)
      | _, _ => None
      end
  end.

Fixpoint same_shape (a b : list nat) : bool :=
  match a, b with
  | [], [] => true
  | x :: a', y :: b' => Nat.eqb x y && same_shape a' b'
  | _, _ => false
  end.

(** The shape of the array numpy builds from a nested list and its leaves
    in row-major order; [None] when the nesting is ragged. A value that is
    not a list is a leaf. *)
Fixpoint array_of (v : Py.value) : option (list nat * list Py.value) :=
  match v with
  | Py.List xs =>
      let fix children (xs : list Py.value)
        : option (list (list nat * list Py.value)) :=
        match xs with
        | [] => Some []
        | x :: rest =>
            match array_of x, children rest with
            | Some a, Some r => Some (a :: r)
            | _, _ => None
            end
        end in
      match children xs with
      | Some [] => Some ([0%nat], [])
      | Some ((shape, leaves) :: rest) =>
          if forallb (fun a => same_shape (fst a) shape) rest
          then Some (S (List.length rest) :: shape,
                     (leaves ++ concat (map snd rest))%list)
          else None
      | None => None
      end
  | _ => Some ([], [v])
  end.

Definition msg_inhomogeneous : string :=
  "setting an array element with a sequence. The requested array has an " ++
  "inhomogeneous shape after 1 dimensions. The detected shape was (8,) + " ++
  "inhomogeneous part.".

(** A conversion for the concrete runs, after numpy (1.24 and later) on
    values decoded from JSON, integers within the int64 range. A regular
    nesting of numbers becomes one float64 row, NaN and the infinities
    included, and is refused by [reshape] when it has no element; a regular
    nesting that holds anything else (a string, null, an object), or a value
    that is not a list, becomes an array of strings or objects; a ragged
    nesting is refused, with the text numpy gives when the eight elements of
    the list differ in shape. *)
Definition np_array_reshape (features : Py.value) : result ndarray :=
  match array_of features with
  | None => raise msg_inhomogeneous
  | Some (shape, leaves) =>
      match to_floats leaves with
      | Some [] => raise "cannot reshape array of size 0 into shape (1,newaxis)"
      | Some row => ret (FloatRow row)
      | None => ret (ObjectArray features)
      end
  end.

Definition is_finite (f : Py.pyfloat) : bool :=
  match f with
  | Py.Finite _ => true
  | _ => false
  end.

Definition label (row : list Py.pyfloat) : Z :=
  match row with
  | Py.Finite radius :: _ => if Qle_bool 15 radius then 1 else 0
  | _ => 0
  end.

Definition check_array (X : ndarray) : result (list Py.pyfloat) :=
  match X with
  | FloatRow row =>
      if forallb is_finite row then ret row
      else raise "Input X contains NaN or infinity."
  | ObjectArray _ => raise "could not convert string to float: 'abc'"
  end.

(** The binary64 number nearest to a decimal. *)
Definition double (q : Q) : Q :=
  match Py.binary64 q with
  | Py.Finite x => x
  | _ => 0
  end.

(** The rows 0.02, 0.98 and 0.9, 0.1. *)
Definition malignant_row : list Q := [double (2 # 100); double (98 # 100)].

Definition benign_row : list Q := [double (9 # 10); double (1 # 10)].

(** A classifier in the manner of a fitted forest: it refuses input that is
    not finite, decides on the first feature and reports two class
    probabilities. *)
Definition forest : Classifier := {|
  model_predict := fun X => row <- check_array X ;; ret [label row];
  model_predict_proba := Some (fun X =>
    row <- check_array X ;;
    ret [if label row =? 1 then malignant_row else benign_row])
|}.

(** A classifier with a hard decision only. *)
Definition hard_forest : Classifier := {|
  model_predict := model_predict forest;
  model_predict_proba := None
|}.

(** The binary64 number nearest to 0.50005. *)
Definition p_near_half : Q := 4504049987333233 # 9007199254740992.

(** A classifier that answers label 1 with the probabilities 1 - p and p
    for p the binary64 number nearest to 0.50005. *)
Definition near_half : Classifier := {|
  model_predict := fun _ => ret [1];
  model_predict_proba := Some (fun _ => ret [[1 - p_near_half; p_near_half]%Q])
|}.

(** A classifier whose probability method reports -0.5 and 1.5. *)
Definition overconfident : Classifier := {|
  model_predict := fun _ => ret [1];
  model_predict_proba := Some (fun _ => ret [[- (1 # 2); 3 # 2]%Q])
|}.

(** A classifier whose probability method returns no row. *)
Definition silent_proba : Classifier := {|
  model_predict := model_predict forest;
  model_predict_proba := Some (fun _ => ret [])
|}.

(** A classifier whose label is outside {0, 1}. *)
Definition three_class : Classifier := {|
  model_predict := fun _ => ret [2];
  model_predict_proba := None
|}.

(** An object whose label alternates from call to call: 1, 0, 1, ... when
    it starts in state [true]. *)
Definition alternating : Estimator bool := {|
  estimator_predict := fun (s : bool) _ => (inr [if s then 1 else 0], negb s);
  estimator_predict_proba := None
|}.

(** A console that accepts every line. *)
Definition utf8_print (text : string) : result unit := ret tt.

(** A standard output encoded in cp1252 (a redirected output on Windows):
    it refuses the three messages, which open with a glyph that this
    encoding does not have. *)
Definition cp1252_print (text : string) : result unit :=
  if starts_with check_mark text then
    raise "'charmap' codec can't encode character '\u2713' in position 0: character maps to <undefined>"
  else if starts_with warning_sign text then
    raise "'charmap' codec can't encode character '\u26a0' in position 0: character maps to <undefined>"
  else if starts_with ballot_x text then
    raise "'charmap' codec can't encode character '\u2717' in position 0: character maps to <undefined>"
  else ret tt.

(** A host with the artifact at the fallback location only. *)
Definition fallback_only : host := {|
  path_exists := fun p => ret (String.eqb p root_model);
  joblib_load := fun p =>
    if String.eqb p root_model then ret (Some forest)
    else raise "No such file or directory";
  print := utf8_print
|}.

(** A host whose primary artifact does not unpickle, with a sound artifact
    at the fallback location. *)
Definition corrupt_primary : host := {|
  path_exists := fun _ => ret true;
  joblib_load := fun p =>
    if String.eqb p MODEL_PATH then raise "invalid load key"
    else ret (Some forest);
  print := utf8_print
|}.

(** A host without any artifact, with a cp1252 output. *)
Definition bare_cp1252 : host := {|
  path_exists := fun _ => ret false;
  joblib_load := fun _ => raise "No such file or directory";
  print := cp1252_print
|}.

(** A host with a sound artifact at the primary location, with a cp1252
    output. *)
Definition sound_cp1252 : host := {|
  path_exists := fun p => ret (String.eqb p MODEL_PATH);
  joblib_load := fun p =>
    if String.eqb p MODEL_PATH then ret (Some forest)
    else raise "No such file or directory";
  print := cp1252_print
|}.

Definition payload (features : Py.value) : result Py.value :=
  inr (Py.Dict [("features", features)]).

Definition num (n d : Z) : Py.value :=
  Py.Float (Py.Finite (Qmake n (Z.to_pos d))).

(** Scenario A of the specification. *)
Definition scenario_A : Py.value :=
  Py.List [ num 1799 100; num 1038 100; num 1228 10; Py.Int 1001;
            num 1184 10000; num 2776 10000; num 3001 10000; num 2419 10000 ].

Definition five : Py.value :=
  Py.List [ Py.Int 1; Py.Int 2; Py.Int 3; Py.Int 4; Py.Int 5 ].

Definition with_nan : Py.value :=
  Py.List [ num 1799 100; num 1038 100; num 1228 10; Py.Int 1001;
            num 1184 10000; num 2776 10000; num 3001 10000; Py.Float Py.NaN ].

Definition with_inf : Py.value :=
  Py.List [ num 1799 100; num 1038 100; num 1228 10; Py.Int 1001;
            num 1184 10000; num 2776 10000; Py.Float Py.PosInf; num 2419 10000 ].

Definition ragged : Py.value :=
  Py.List [ Py.List [Py.Int 1; Py.Int 2]; Py.List [Py.Int 3]; Py.Int 4; Py.Int 5;
            Py.Int 6; Py.Int 7; Py.Int 8; Py.Int 9 ].

Definition with_text : Py.value :=
  Py.List [ num 1799 100; num 1038 100; num 1228 10; Py.Int 1001;
            num 1184 10000; num 2776 10000; num 3001 10000; Py.Str "abc" ].

End Sample.

(** * Properties *)

(** ** Rounding and maximum *)

Section Rounding.

Local Open Scope Q_scope.

Lemma round_half_even_lower (q : Q) (z : Z) :
  inject_Z z <= q -> (z <= Py.round_half_even q)%Z.
Proof.
  destruct q as [n d]. unfold Qle, Py.round_half_even. cbn [Qnum Qden inject_Z].
  intros H.
  assert (Hf : (z <= n / Zpos d)%Z) by (apply Z.div_le_lower_bound; lia).
  destruct (2 * (n mod Zpos d) ?= Zpos d)%Z; [destruct (Z.even _) | |]; lia.
Qed.

Lemma round_half_even_upper (q : Q) (z : Z) :
  q <= inject_Z z -> (Py.round_half_even q <= z)%Z.
Proof.
  destruct q as [n d]. unfold Qle, Py.round_half_even. cbn [Qnum Qden inject_Z].
  intros H.
  pose proof (Z.div_mod n (Zpos d) ltac:(lia)) as Hdm.
  pose proof (Z.mod_pos_bound n (Zpos d) ltac:(lia)) as Hr.
  assert (Hf : (n / Zpos d <= z)%Z) by nia.
  destruct (Z.eq_dec (n / Zpos d) z) as [Heq | Hne].
  - assert (Hr0 : (n mod Zpos d = 0)%Z) by nia.
    rewrite Hr0. cbn. lia.
  - destruct (2 * (n mod Zpos d) ?= Zpos d)%Z; [destruct (Z.even _) | |]; lia.
Qed.

Lemma scale_pos (ndigits : nat) :
  Zpos (Z.to_pos (10 ^ Z.of_nat ndigits)) = (10 ^ Z.of_nat ndigits)%Z.
Proof. apply Z2Pos.id. apply Z.pow_pos_nonneg; lia. Qed.

(** Rounding never crosses an integer. *)
Lemma round_lower (q : Q) (ndigits : nat) (z : Z) :
  inject_Z z <= q -> inject_Z z <= Py.round q ndigits.
Proof.
  intros H. unfold Py.round. rewrite Qred_correct.
  set (s := Z.to_pos (10 ^ Z.of_nat ndigits)).
  assert (Hz : (z * Zpos s <= Py.round_half_even (q * inject_Z (Zpos s)))%Z).
  { apply round_half_even_lower. rewrite inject_Z_mult.
    apply Qmult_le_compat_r; [exact H |]. unfold Qle; cbn; lia. }
  unfold Qle; cbn [Qnum Qden inject_Z]. lia.
Qed.

Lemma round_upper (q : Q) (ndigits : nat) (z : Z) :
  q <= inject_Z z -> Py.round q ndigits <= inject_Z z.
Proof.
  intros H. unfold Py.round. rewrite Qred_correct.
  set (s := Z.to_pos (10 ^ Z.of_nat ndigits)).
  assert (Hz : (Py.round_half_even (q * inject_Z (Zpos s)) <= z * Zpos s)%Z).
  { apply round_half_even_upper. rewrite inject_Z_mult.
    apply Qmult_le_compat_r; [exact H |]. unfold Qle; cbn; lia. }
  unfold Qle; cbn [Qnum Qden inject_Z]. lia.
Qed.

Lemma fold_larger_ge (rest : list Q) (x : Q) :
  x <= fold_left Py.larger rest x /\
  Forall (fun y => y <= fold_left Py.larger rest x) rest.
Proof.
  revert x. induction rest as [| y rest IH]; intros x; cbn [fold_left].
  - split; [apply Qle_refl | constructor].
  - destruct (IH (Py.larger x y)) as [Hm Hall].
    assert (Hx : x <= Py.larger x y /\ y <= Py.larger x y).
    { unfold Py.larger. destruct (Qle_bool y x) eqn:E.
      - apply Qle_bool_iff in E. split; [apply Qle_refl | exact E].
      - split; [| apply Qle_refl].
        destruct (Qlt_le_dec x y) as [Hlt | Hle]; [apply Qlt_le_weak; exact Hlt |].
        apply Qle_bool_iff in Hle. congruence. }
    destruct Hx as [Hx Hy]. split.
    + eapply Qle_trans; eassumption.
    + constructor; [eapply Qle_trans; eassumption | exact Hall].
Qed.

Lemma fold_larger_in (rest : list Q) (x : Q) :
  In (fold_left Py.larger rest x) (x :: rest).
Proof.
  revert x. induction rest as [| y rest IH]; intros x; cbn [fold_left].
  - left; reflexivity.
  - destruct (IH (Py.larger x y)) as [H | H].
    + unfold Py.larger in H at 1. destruct (Qle_bool y x).
      * left; exact H.
      * right; left; exact H.
    + right; right; exact H.
Qed.

(** [max(xs)] is an element of [xs] and no element is larger. *)
Lemma max_spec (xs : list Q) (p : Q) :
  Py.max xs = inr p -> In p xs /\ Forall (fun x => x <= p) xs.
Proof.
  destruct xs as [| x rest]; cbn; [discriminate |].
  intros H. injection H as <-.
  destruct (fold_larger_ge rest x) as [Hx Hall].
  split; [apply fold_larger_in | constructor; assumption].
Qed.

Lemma round_half_even_near (n : Z) (d : positive) :
  (2 * n - Zpos d <= 2 * Py.round_half_even (n # d) * Zpos d <= 2 * n + Zpos d)%Z.
Proof.
  unfold Py.round_half_even. cbn [Qnum Qden].
  pose proof (Z.div_mod n (Zpos d) ltac:(lia)) as Hdm.
  pose proof (Z.mod_pos_bound n (Zpos d) ltac:(lia)) as Hr.
  destruct (Z.compare_spec (2 * (n mod Zpos d)) (Zpos d)) as [Heq | Hlt | Hgt];
    [destruct (Z.even _) | |]; nia.
Qed.

Lemma round_half_even_monotone (x y : Q) :
  x <= y -> (Py.round_half_even x <= Py.round_half_even y)%Z.
Proof.
  destruct x as [n1 d1], y as [n2 d2]. unfold Qle. cbn [Qnum Qden]. intros Hle.
  unfold Py.round_half_even. cbn [Qnum Qden].
  pose proof (Z.div_mod n1 (Zpos d1) ltac:(lia)) as Hdm1.
  pose proof (Z.mod_pos_bound n1 (Zpos d1) ltac:(lia)) as Hr1.
  pose proof (Z.div_mod n2 (Zpos d2) ltac:(lia)) as Hdm2.
  pose proof (Z.mod_pos_bound n2 (Zpos d2) ltac:(lia)) as Hr2.
  assert (Hf : (n1 / Zpos d1 <= n2 / Zpos d2)%Z).
  { apply Z.div_le_lower_bound; [lia |].
    apply (Z.mul_le_mono_pos_l _ _ (Zpos d1)); [lia |]. nia. }
  set (f1 := (n1 / Zpos d1)%Z) in *. set (r1 := (n1 mod Zpos d1)%Z) in *.
  set (f2 := (n2 / Zpos d2)%Z) in *. set (r2 := (n2 mod Zpos d2)%Z) in *.
  destruct (Z.eq_dec f1 f2) as [Heq | Hne].
  - assert (Hr : (r1 * Zpos d2 <= r2 * Zpos d1)%Z) by nia.
    rewrite <- Heq.
    destruct (Z.compare_spec (2 * r1) (Zpos d1)) as [E1 | L1 | G1];
      destruct (Z.compare_spec (2 * r2) (Zpos d2)) as [E2 | L2 | G2];
      try (destruct (Z.even f1)); try lia; exfalso; nia.
  - destruct (Z.compare_spec (2 * r1) (Zpos d1)) as [E1 | L1 | G1];
      destruct (Z.compare_spec (2 * r2) (Zpos d2)) as [E2 | L2 | G2];
      try (destruct (Z.even f1)); try (destruct (Z.even f2)); lia.
Qed.

Lemma round_monotone (p q : Q) (ndigits : nat) :
  p <= q -> Py.round p ndigits <= Py.round q ndigits.
Proof.
  intros H. unfold Py.round. rewrite !Qred_correct.
  set (s := Z.to_pos (10 ^ Z.of_nat ndigits)).
  assert (Hz : (Py.round_half_even (p * inject_Z (Zpos s))
                <= Py.round_half_even (q * inject_Z (Zpos s)))%Z).
  { apply round_half_even_monotone.
    apply Qmult_le_compat_r; [exact H |]. unfold Qle; cbn; lia. }
  unfold Qle; cbn [Qnum Qden]. nia.
Qed.

Lemma round2_near (q : Q) :
  q - (1 # 200) <= Py.round q 2 <= q + (1 # 200).
Proof.
  unfold Py.round. rewrite Qred_correct.
  change (Z.to_pos (10 ^ Z.of_nat 2)) with 100%positive.
  destruct q as [n d].
  pose proof (round_half_even_near (n * 100) (d * 1)) as H.
  change ((n # d) * inject_Z 100) with ((n * 100) # (d * 1)).
  set (a := Py.round_half_even ((n * 100) # (d * 1))) in *.
  unfold Qle, Qminus, Qplus, Qopp. cbn [Qnum Qden].
  rewrite ?Pos2Z.inj_mul in *. split; nia.
Qed.

Lemma round2_hundredths (q : Q) :
  Py.round q 2 == Py.round_half_even (q * 100) # 100.
Proof. unfold Py.round. apply Qred_correct. Qed.

(** *** binary64 *)

Lemma two_pos (k : Z) : 0 < 2 ^ k.
Proof. apply Qpower_0_lt. reflexivity. Qed.

Lemma two_split (a b : Z) : 2 ^ (a + b) == 2 ^ a * 2 ^ b.
Proof. apply Qpower_plus. discriminate. Qed.

Lemma two_cancel (k : Z) : 2 ^ (- k) * 2 ^ k == 1.
Proof. rewrite <- two_split. replace (- k + k)%Z with 0%Z by lia. reflexivity. Qed.

Lemma two_int (j : Z) : (0 <= j)%Z -> 2 ^ j == inject_Z (2 ^ j).
Proof. intros H. rewrite Zpower_Qpower by exact H. reflexivity. Qed.

Lemma frac_ge_two (n : Z) (d : positive) (A B : Z) :
  (0 <= A)%Z -> (0 <= B)%Z ->
  (Zpos d * 2 ^ A <= n * 2 ^ B)%Z -> 2 ^ (A - B) <= n # d.
Proof.
  intros HA HB H.
  unfold Z.sub. rewrite two_split, Qpower_opp, !two_int by assumption.
  apply Qle_shift_div_r.
  - change 0 with (inject_Z 0). rewrite <- Zlt_Qlt. apply Z.pow_pos_nonneg; lia.
  - unfold Qle. cbn [Qnum Qden Qmult inject_Z]. rewrite Pos2Z.inj_mul. lia.
Qed.

Lemma frac_lt_two (n : Z) (d : positive) (A B : Z) :
  (0 <= A)%Z -> (0 <= B)%Z ->
  (n * 2 ^ B < Zpos d * 2 ^ A)%Z -> n # d < 2 ^ (A - B).
Proof.
  intros HA HB H.
  unfold Z.sub. rewrite two_split, Qpower_opp, !two_int by assumption.
  apply Qlt_shift_div_l.
  - change 0 with (inject_Z 0). rewrite <- Zlt_Qlt. apply Z.pow_pos_nonneg; lia.
  - unfold Qlt. cbn [Qnum Qden Qmult inject_Z]. rewrite Pos2Z.inj_mul. lia.
Qed.

Lemma floor_log2_spec (x : Q) :
  0 < x -> 2 ^ Py.floor_log2 x <= x /\ x < 2 ^ (Py.floor_log2 x + 1).
Proof.
  destruct x as [n d]. intros Hx.
  assert (Hn : (0 < n)%Z) by (unfold Qlt in Hx; cbn in Hx; lia).
  unfold Py.floor_log2. cbn [Qnum Qden].
  destruct (Z.log2_spec n Hn) as [Ha1 Ha2].
  destruct (Z.log2_spec (Zpos d) ltac:(lia)) as [Hb1 Hb2].
  pose proof (Z.log2_nonneg n) as Ha0.
  pose proof (Z.log2_nonneg (Zpos d)) as Hb0.
  set (a := Z.log2 n) in *. set (b := Z.log2 (Zpos d)) in *.
  rewrite Z.pow_succ_r in Ha2, Hb2 by assumption.
  assert (Hpa : (0 < 2 ^ a)%Z) by (apply Z.pow_pos_nonneg; lia).
  assert (Hpb : (0 < 2 ^ b)%Z) by (apply Z.pow_pos_nonneg; lia).
  destruct (Z.leb_spec (Zpos d * 2 ^ a) (n * 2 ^ b)) as [Hle | Hgt].
  - split.
    + apply frac_ge_two; assumption.
    + replace (a - b + 1)%Z with (a + 1 - b)%Z by lia.
      apply frac_lt_two; [lia | lia |].
      rewrite Z.pow_add_r, Z.pow_1_r by lia. nia.
  - split.
    + replace (a - b - 1)%Z with (a - (b + 1))%Z by lia.
      apply frac_ge_two; [lia | lia |].
      rewrite Z.pow_add_r, Z.pow_1_r by lia. nia.
    + replace (a - b - 1 + 1)%Z with (a - b)%Z by lia.
      apply frac_lt_two; assumption.
Qed.

Lemma floor_log2_monotone (x y : Q) :
  0 < x -> x <= y -> (Py.floor_log2 x <= Py.floor_log2 y)%Z.
Proof.
  intros Hx Hxy.
  destruct (floor_log2_spec x Hx) as [Hx1 _].
  destruct (floor_log2_spec y (Qlt_le_trans _ _ _ Hx Hxy)) as [_ Hy2].
  assert (H : 2 ^ Py.floor_log2 x < 2 ^ (Py.floor_log2 y + 1)).
  { eapply Qle_lt_trans; [exact Hx1 |]. eapply Qle_lt_trans; eassumption. }
  apply Qpower_lt_compat_l_inv in H; [lia | reflexivity].
Qed.

Lemma round_half_even_opp (q : Q) :
  Py.round_half_even (- q) = (- Py.round_half_even q)%Z.
Proof.
  destruct q as [n d]. unfold Py.round_half_even. cbn [Qnum Qden Qopp].
  pose proof (Z.div_mod n (Zpos d) ltac:(lia)) as Hdm.
  pose proof (Z.mod_pos_bound n (Zpos d) ltac:(lia)) as Hr.
  destruct (Z.eq_dec (n mod Zpos d) 0) as [H0 | Hnz].
  - rewrite (Z.div_opp_l_z n (Zpos d)) by lia.
    rewrite (Z.mod_opp_l_z n (Zpos d)) by lia.
    rewrite H0. cbn. reflexivity.
  - rewrite (Z.div_opp_l_nz n (Zpos d)) by lia.
    rewrite (Z.mod_opp_l_nz n (Zpos d)) by lia.
    set (f := (n / Zpos d)%Z) in *. set (r := (n mod Zpos d)%Z) in *.
    destruct (Z.compare_spec (2 * r) (Zpos d)) as [E | L | G];
      destruct (Z.compare_spec (2 * (Zpos d - r)) (Zpos d)) as [E' | L' | G'];
      try lia.
    replace (- f - 1)%Z with (- (f + 1))%Z by lia.
    rewrite Z.even_opp, Z.even_add. cbn.
    destruct (Z.even f); cbn; lia.
Qed.

Lemma round_half_even_close (q : Q) :
  q - (1 # 2) <= inject_Z (Py.round_half_even q) <= q + (1 # 2).
Proof.
  destruct q as [n d]. pose proof (round_half_even_near n d) as H.
  set (a := Py.round_half_even (n # d)) in *.
  unfold Qle, Qminus, Qplus, Qopp. cbn [Qnum Qden inject_Z].
  rewrite ?Pos2Z.inj_mul. split; nia.
Qed.

(** Rounding to the grid of the multiples of 2^k. *)
Lemma nearest_monotone (k : Z) (x y : Q) :
  x <= y -> Py.nearest k x <= Py.nearest k y.
Proof.
  intros H. unfold Py.nearest.
  apply Qmult_le_compat_r; [| apply Qlt_le_weak, two_pos].
  rewrite <- Zle_Qle. apply round_half_even_monotone.
  apply Qmult_le_compat_r; [exact H | apply Qlt_le_weak, two_pos].
Qed.

Lemma grid_scaled (k z : Z) : inject_Z z * 2 ^ k * 2 ^ (- k) == inject_Z z.
Proof.
  rewrite <- Qmult_assoc, (Qmult_comm (2 ^ k)), two_cancel. apply Qmult_1_r.
Qed.

Lemma nearest_lower (k z : Z) (x : Q) :
  inject_Z z * 2 ^ k <= x -> inject_Z z * 2 ^ k <= Py.nearest k x.
Proof.
  intros H. unfold Py.nearest.
  apply Qmult_le_compat_r; [| apply Qlt_le_weak, two_pos].
  rewrite <- Zle_Qle. apply round_half_even_lower.
  rewrite <- (grid_scaled k z).
  apply Qmult_le_compat_r; [exact H | apply Qlt_le_weak, two_pos].
Qed.

Lemma nearest_upper (k z : Z) (x : Q) :
  x <= inject_Z z * 2 ^ k -> Py.nearest k x <= inject_Z z * 2 ^ k.
Proof.
  intros H. unfold Py.nearest.
  apply Qmult_le_compat_r; [| apply Qlt_le_weak, two_pos].
  rewrite <- Zle_Qle. apply round_half_even_upper.
  rewrite <- (grid_scaled k z).
  apply Qmult_le_compat_r; [exact H | apply Qlt_le_weak, two_pos].
Qed.

Lemma nearest_opp (k : Z) (x : Q) : Py.nearest k (- x) == - Py.nearest k x.
Proof.
  unfold Py.nearest.
  assert (E : - x * 2 ^ (- k) = - (x * 2 ^ (- k))).
  { destruct x as [n d], (2 ^ (- k)) as [u v]. unfold Qmult, Qopp. cbn [Qnum Qden].
    f_equal. lia. }
  rewrite E, round_half_even_opp, inject_Z_opp. ring.
Qed.

Lemma nearest_close (k : Z) (x : Q) :
  x - 2 ^ k * (1 # 2) <= Py.nearest k x <= x + 2 ^ k * (1 # 2).
Proof.
  unfold Py.nearest.
  pose proof (round_half_even_close (x * 2 ^ (- k))) as [H1 H2].
  pose proof (two_pos k) as Hk. pose proof (two_cancel k) as Hc.
  set (m := inject_Z (Py.round_half_even (x * 2 ^ (- k)))) in *.
  set (c := 2 ^ (- k)) in *. set (t := 2 ^ k) in *.
  assert (E1 : (x * c - (1 # 2)) * t == x - t * (1 # 2)).
  { setoid_replace ((x * c - (1 # 2)) * t) with (x * (c * t) - t * (1 # 2)) by ring.
    rewrite Hc. ring. }
  assert (E2 : (x * c + (1 # 2)) * t == x + t * (1 # 2)).
  { setoid_replace ((x * c + (1 # 2)) * t) with (x * (c * t) + t * (1 # 2)) by ring.
    rewrite Hc. ring. }
  split.
  - rewrite <- E1. apply Qmult_le_compat_r; [exact H1 | apply Qlt_le_weak, Hk].
  - rewrite <- E2. apply Qmult_le_compat_r; [exact H2 | apply Qlt_le_weak, Hk].
Qed.

Lemma Qabs_nonneg_eq (x : Q) : 0 <= x -> Qabs x = x.
Proof.
  destruct x as [n d]. unfold Qle. cbn. intros H.
  rewrite Z.abs_eq by lia. reflexivity.
Qed.

Lemma ulp_exponent_opp (x : Q) : Py.ulp_exponent (- x) = Py.ulp_exponent x.
Proof.
  destruct x as [n d]. unfold Py.ulp_exponent, Qabs, Qopp. cbn [Qnum Qden].
  rewrite Z.abs_opp. reflexivity.
Qed.

Lemma rounded_opp (x : Q) : Py.rounded (- x) == - Py.rounded x.
Proof. unfold Py.rounded. rewrite ulp_exponent_opp. apply nearest_opp. Qed.

Lemma rounded_nonneg (x : Q) : 0 <= x -> 0 <= Py.rounded x.
Proof.
  intros H. unfold Py.rounded.
  setoid_replace 0 with (inject_Z 0 * 2 ^ Py.ulp_exponent x) by ring.
  apply nearest_lower. setoid_replace (inject_Z 0 * 2 ^ Py.ulp_exponent x) with 0 by ring.
  exact H.
Qed.

Lemma rounded_nonpos (x : Q) : x <= 0 -> Py.rounded x <= 0.
Proof.
  intros H. unfold Py.rounded.
  setoid_replace 0 with (inject_Z 0 * 2 ^ Py.ulp_exponent x) by ring.
  apply nearest_upper. setoid_replace (inject_Z 0 * 2 ^ Py.ulp_exponent x) with 0 by ring.
  exact H.
Qed.

Lemma rounded_monotone_pos (x y : Q) :
  0 < x -> x <= y -> Py.rounded x <= Py.rounded y.
Proof.
  intros Hx Hxy.
  assert (Hy : 0 < y) by (eapply Qlt_le_trans; eassumption).
  pose proof (floor_log2_monotone x y Hx Hxy) as He.
  destruct (floor_log2_spec x Hx) as [_ Hx2].
  destruct (floor_log2_spec y Hy) as [Hy1 _].
  unfold Py.rounded, Py.ulp_exponent.
  rewrite (Qabs_nonneg_eq x), (Qabs_nonneg_eq y) by (apply Qlt_le_weak; assumption).
  set (ex := Py.floor_log2 x) in *. set (ey := Py.floor_log2 y) in *.
  destruct (Z.eq_dec (Z.max (ex - 52) (-1074)) (Z.max (ey - 52) (-1074))) as [Heq | Hne].
  - rewrite Heq. apply nearest_monotone. exact Hxy.
  - set (kx := Z.max (ex - 52) (-1074)) in *.
    assert (Hky : Z.max (ey - 52) (-1074) = (ey - 52)%Z) by lia.
    rewrite Hky.
    assert (Hlt : (ex + 1 <= ey)%Z) by lia.
    assert (Hkx : (0 <= ey - kx)%Z) by lia.
    apply Qle_trans with (2 ^ ey).
    + assert (E : 2 ^ ey == inject_Z (2 ^ (ey - kx)) * 2 ^ kx).
      { rewrite <- two_int by exact Hkx. rewrite <- two_split.
        replace (ey - kx + kx)%Z with ey by lia. reflexivity. }
      rewrite E. apply nearest_upper. rewrite <- E.
      apply Qlt_le_weak. eapply Qlt_le_trans; [exact Hx2 |].
      apply Qpower_le_compat_l; [lia | discriminate].
    + assert (E : 2 ^ ey == inject_Z (2 ^ 52) * 2 ^ (ey - 52)).
      { rewrite <- two_int by lia. rewrite <- two_split.
        replace (52 + (ey - 52))%Z with ey by lia. reflexivity. }
      rewrite E. apply nearest_lower. rewrite <- E. exact Hy1.
Qed.

Lemma rounded_monotone (x y : Q) : x <= y -> Py.rounded x <= Py.rounded y.
Proof.
  intros Hxy.
  destruct (Qlt_le_dec 0 x) as [Hx | Hx].
  - apply rounded_monotone_pos; assumption.
  - destruct (Qlt_le_dec y 0) as [Hy | Hy].
    + assert (H : Py.rounded (- y) <= Py.rounded (- x)).
      { apply rounded_monotone_pos; lra. }
      rewrite !rounded_opp in H. lra.
    + apply Qle_trans with 0; [apply rounded_nonpos | apply rounded_nonneg]; assumption.
Qed.

Lemma binary64_monotone (x y : Q) :
  x <= y -> Py.float_le (Py.binary64 x) (Py.binary64 y).
Proof.
  intros Hxy. pose proof (rounded_monotone x y Hxy) as H.
  pose proof (two_pos 1024) as Hbig.
  unfold Py.binary64.
  destruct (Qle_bool (2 ^ 1024) (Py.rounded x)) eqn:Ex1;
    destruct (Qle_bool (2 ^ 1024) (Py.rounded y)) eqn:Ey1;
    destruct (Qle_bool (Py.rounded x) (- 2 ^ 1024)) eqn:Ex2;
    destruct (Qle_bool (Py.rounded y) (- 2 ^ 1024)) eqn:Ey2;
    cbn [Py.float_le]; try exact I;
    rewrite ?Qred_correct;
    try apply Qle_bool_iff in Ex1; try apply Qle_bool_iff in Ey1;
    try apply Qle_bool_iff in Ex2; try apply Qle_bool_iff in Ey2;
    try (assert (Hn : ~ 2 ^ 1024 <= Py.rounded y)
           by (intros Hc; apply Qle_bool_iff in Hc; congruence));
    try (assert (Hm : ~ Py.rounded x <= - 2 ^ 1024)
           by (intros Hc; apply Qle_bool_iff in Hc; congruence));
    try lra.
Qed.

Lemma binary64_between (lo hi x : Q) :
  Py.rounded lo == lo -> Py.rounded hi == hi ->
  - 2 ^ 1024 < lo -> hi < 2 ^ 1024 ->
  lo <= x <= hi ->
  exists y, Py.binary64 x = Py.Finite y /\ lo <= y <= hi.
Proof.
  intros Hlo Hhi Hl Hh [H1 H2].
  pose proof (rounded_monotone lo x H1) as Ha.
  pose proof (rounded_monotone x hi H2) as Hb.
  rewrite Hlo in Ha. rewrite Hhi in Hb.
  unfold Py.binary64.
  destruct (Qle_bool (2 ^ 1024) (Py.rounded x)) eqn:E1.
  { apply Qle_bool_iff in E1. lra. }
  destruct (Qle_bool (Py.rounded x) (- 2 ^ 1024)) eqn:E2.
  { apply Qle_bool_iff in E2. lra. }
  eexists. split; [reflexivity |]. rewrite Qred_correct. split; assumption.
Qed.

Lemma ulp_exponent_small (x : Q) :
  0 <= x -> x <= 100 -> (Py.ulp_exponent x <= -46)%Z.
Proof.
  intros H0 H100. unfold Py.ulp_exponent. rewrite (Qabs_nonneg_eq x H0).
  assert (He : (Py.floor_log2 x <= 6)%Z).
  { destruct (Qlt_le_dec 0 x) as [Hx | Hx].
    - destruct (floor_log2_spec x Hx) as [H1 _].
      assert (H : 2 ^ Py.floor_log2 x < 2 ^ 7).
      { eapply Qle_lt_trans; [exact H1 |]. eapply Qle_lt_trans; [exact H100 |].
        reflexivity. }
      apply Qpower_lt_compat_l_inv in H; [lia | reflexivity].
    - destruct x as [n d]. unfold Qle in H0, Hx. cbn in H0, Hx.
      assert (n = 0%Z) by lia. subst n.
      pose proof (Z.log2_nonneg (Zpos d)) as Hb.
      unfold Py.floor_log2. cbn [Qnum Qden]. change (Z.log2 0) with 0%Z.
      set (b := Z.log2 (Zpos d)) in *.
      destruct (Zpos d * 2 ^ 0 <=? 0 * 2 ^ b)%Z; lia. }
  lia.
Qed.

Lemma binary64_finite (x y : Q) :
  Py.binary64 x = Py.Finite y ->
  y == Py.rounded x /\ - 2 ^ 1024 < Py.rounded x /\ Py.rounded x < 2 ^ 1024.
Proof.
  unfold Py.binary64. generalize (Py.rounded x) as r. intros r.
  destruct (Qle_bool (2 ^ 1024) r) eqn:E1; [discriminate |].
  destruct (Qle_bool r (- 2 ^ 1024)) eqn:E2; [discriminate |].
  intros E. assert (Hy : y = Qred r) by congruence. subst y.
  split; [apply Qred_correct |].
  split.
  - apply Qnot_le_lt. intros Hc. apply Qle_bool_iff in Hc. congruence.
  - apply Qnot_le_lt. intros Hc. apply Qle_bool_iff in Hc. congruence.
Qed.

Lemma binary64_error (x y : Q) :
  0 <= x -> x <= 100 -> Py.binary64 x = Py.Finite y ->
  x - (1 # 2 ^ 47) <= y <= x + (1 # 2 ^ 47).
Proof.
  intros H0 H100 E. destruct (binary64_finite x y E) as [Hr _].
  assert (H1 : x - 2 ^ Py.ulp_exponent x * (1 # 2) <= Py.rounded x)
    by apply nearest_close.
  assert (H2 : Py.rounded x <= x + 2 ^ Py.ulp_exponent x * (1 # 2))
    by apply nearest_close.
  pose proof (ulp_exponent_small x H0 H100) as Hk.
  assert (Hp : 2 ^ Py.ulp_exponent x <= 2 ^ (-46)).
  { apply Qpower_le_compat_l; [exact Hk | discriminate]. }
  assert (E46 : 2 ^ (-46) * (1 # 2) == 1 # 2 ^ 47) by reflexivity.
  set (u := 2 ^ Py.ulp_exponent x) in *. set (v := 2 ^ (-46)) in *.
  set (w := 1 # 2 ^ 47) in *. set (r := Py.rounded x) in *.
  split; lra.
Qed.

Lemma rounded_50 : Py.rounded 50 == 50.
Proof. vm_compute. reflexivity. Qed.

Lemma rounded_100 : Py.rounded 100 == 100.
Proof. vm_compute. reflexivity. Qed.

Lemma rounded_0 : Py.rounded 0 == 0.
Proof. vm_compute. reflexivity. Qed.

End Rounding.

(** ** The handler, branch by branch *)

Section Handler.

Variable np_array_reshape : Py.value -> result ndarray.

Lemma predict_get_json_raises model e :
  predict np_array_reshape model (inl e) = (error ("Server error: " ++ e) 500, []).
Proof. reflexivity. Qed.

Lemma predict_malformed model data :
  Py.truthy data = false \/ Py.contains data "features" = inr false ->
  predict np_array_reshape model (inr data) = (error msg_invalid_request 400, []).
Proof.
  unfold predict, predict_body. cbn [bind ret Monad_traced lift].
  intros [H | H].
  - rewrite H. reflexivity.
  - rewrite H. destruct (Py.truthy data); reflexivity.
Qed.

Lemma lookup_truthy key items v :
  Py.lookup key items = Some v -> Py.truthy (Py.Dict items) = true.
Proof. destruct items; [discriminate | reflexivity]. Qed.

Lemma predict_dict model items features :
  Py.lookup "features" items = Some features ->
  predict np_array_reshape model (inr (Py.Dict items)) = caught (predict_features np_array_reshape model features).
Proof.
  intros H. unfold predict, predict_body.
  cbn [bind ret Monad_traced Monad_result lift].
  rewrite (lookup_truthy _ _ _ H). cbn [negb Py.contains Py.getitem ret Monad_result].
  rewrite H. cbn [negb].
  destruct (predict_features np_array_reshape model features) as [[e | r] t]; reflexivity.
Qed.

Lemma features_wrong_count model features n :
  Py.len features = inr n -> n <> 8%nat ->
  predict_features np_array_reshape model features =
    (inr (error ("Expected 8 features, got " ++ Py.str_of_nat n) 400), []).
Proof.
  intros Hlen Hn. unfold predict_features. rewrite Hlen.
  cbn [bind ret Monad_traced lift].
  apply Nat.eqb_neq in Hn. rewrite Hn. reflexivity.
Qed.

Lemma features_len_raises model features e :
  Py.len features = inl e ->
  predict_features np_array_reshape model features = (inl e, []).
Proof.
  intros Hlen. unfold predict_features. rewrite Hlen. reflexivity.
Qed.

Lemma features_absent features :
  Py.len features = inr 8%nat ->
  predict_features np_array_reshape None features = (inr (error msg_model_not_loaded 500), []).
Proof.
  intros Hlen. unfold predict_features. rewrite Hlen. reflexivity.
Qed.

Lemma features_invalid m features e :
  Py.len features = inr 8%nat ->
  np_array_reshape features = inl e ->
  predict_features np_array_reshape (Some m) features =
    (inr (error ("Invalid feature values: " ++ e) 400), []).
Proof.
  intros Hlen Hnp. unfold predict_features. rewrite Hlen.
  cbn [bind ret Monad_traced lift Nat.eqb negb]. rewrite Hnp. reflexivity.
Qed.

Lemma features_converted m features X :
  Py.len features = inr 8%nat ->
  np_array_reshape features = inr X ->
  predict_features np_array_reshape (Some m) features =
    match make_prediction m X with
    | (inr b, t) => (inr (jsonify b), t)
    | (inl e, t) => (inr (error ("Prediction error: " ++ e) 500), t)
    end.
Proof.
  intros Hlen Hnp. unfold predict_features. rewrite Hlen.
  cbn [bind ret Monad_traced lift Nat.eqb negb]. rewrite Hnp.
  destruct (make_prediction m X) as [[e | b] t]; reflexivity.
Qed.

Lemma make_prediction_hard m X y ys :
  model_predict m X = inr (y :: ys) ->
  model_predict_proba m = None ->
  make_prediction m X =
    (inr (PredictionBody (diagnosis_of y) (Py.Finite 100) y), [CallPredict X]).
Proof.
  intros Hp Hnone. unfold make_prediction, call_predict. rewrite Hp, Hnone.
  reflexivity.
Qed.

Lemma make_prediction_proba m X y ys proba row rows p :
  model_predict m X = inr (y :: ys) ->
  model_predict_proba m = Some proba ->
  proba X = inr (row :: rows) ->
  Py.max row = inr p ->
  make_prediction m X =
    (inr (PredictionBody (diagnosis_of y)
            (Py.round_float (Py.binary64 (p * 100)) 2) y),
     [CallPredict X; CallPredictProba X]).
Proof.
  intros Hp Hsome Hrows Hmax.
  unfold make_prediction, call_predict, call_predict_proba.
  rewrite Hp, Hsome, Hrows.
  cbn [bind ret Monad_traced lift Py.index0 Monad_result].
  rewrite Hmax. reflexivity.
Qed.

(** A prediction that succeeds carries the diagnosis of its label. *)
Lemma make_prediction_inv m X b t :
  make_prediction m X = (inr b, t) ->
  exists y conf, b = PredictionBody (diagnosis_of y) conf y.
Proof.
  unfold make_prediction, call_predict, call_predict_proba.
  destruct (model_predict m X) as [e | [| y ys]];
    cbn [bind ret Monad_traced lift Py.index0 Monad_result raise];
    try discriminate.
  destruct (model_predict_proba m) as [proba |];
    cbn [bind ret Monad_traced lift Py.index0 Monad_result raise].
  - destruct (proba X) as [e | [| row rows]];
      cbn [bind ret Monad_traced lift Py.index0 Monad_result raise];
      try discriminate.
    destruct (Py.max row) as [e | p];
      cbn [bind ret Monad_traced lift Py.index0 Monad_result raise];
      try discriminate.
    intros H. injection H as <- _. eauto.
  - intros H. injection H as <- _. eauto.
Qed.

Local Ltac err_case := left; do 2 eexists; reflexivity.

(** The responses of the handler: an error object, or the prediction the
    inner block returned for a loaded model. *)
Lemma predict_cases model get_json :
  (exists msg st, fst (predict np_array_reshape model get_json) = error msg st) \/
  (exists m X b t, model = Some m /\ make_prediction m X = (inr b, t) /\
     predict np_array_reshape model get_json = (jsonify b, t)).
Proof.
  unfold predict, predict_body.
  destruct get_json as [e | data]; cbn [bind ret Monad_traced lift]; [err_case |].
  destruct (Py.truthy data); cbn [negb]; [| err_case].
  destruct (Py.contains data "features") as [e | [|]];
    cbn [bind ret Monad_result Monad_traced lift negb caught fst]; [err_case | | err_case].
  destruct (Py.getitem data "features") as [e | features];
    cbn [bind ret Monad_result Monad_traced lift negb caught fst]; [err_case |].
  unfold predict_features.
  destruct (Py.len features) as [e | n];
    cbn [bind ret Monad_result Monad_traced lift negb caught fst]; [err_case |].
  destruct (Nat.eqb n 8); cbn [negb]; [| err_case].
  destruct model as [m |]; [| err_case].
  destruct (np_array_reshape features) as [e | X]; [err_case |].
  destruct (make_prediction m X) as [[e | b] t] eqn:E; [err_case |].
  right. exists m, X, b, t. auto.
Qed.

(** With no model the classifier is never called. *)
Lemma predict_absent_trace get_json :
  snd (predict np_array_reshape None get_json) = [].
Proof.
  unfold predict, predict_body.
  destruct get_json as [e | data]; cbn [bind ret Monad_traced lift]; [reflexivity |].
  destruct (Py.truthy data); cbn [negb]; [| reflexivity].
  destruct (Py.contains data "features") as [e | [|]];
    cbn [bind ret Monad_result Monad_traced lift negb caught snd]; try reflexivity.
  destruct (Py.getitem data "features") as [e | features];
    cbn [bind ret Monad_result Monad_traced lift negb caught snd]; try reflexivity.
  unfold predict_features.
  destruct (Py.len features) as [e | n];
    cbn [bind ret Monad_result Monad_traced lift negb caught snd]; try reflexivity.
  destruct (Nat.eqb n 8); reflexivity.
Qed.

(** Once the conversion succeeds the classifier is called on the array,
    whatever the values are; the response is then a prediction or a
    "Prediction error", never "Invalid feature values". *)
Lemma converted_reaches_classifier m items features X :
  Py.lookup "features" items = Some features ->
  Py.len features = inr 8%nat ->
  np_array_reshape features = inr X ->
  (exists t, snd (predict np_array_reshape (Some m) (inr (Py.Dict items)))
               = CallPredict X :: t)
  /\ kind (fst (predict np_array_reshape (Some m) (inr (Py.Dict items))))
       <> Some InvalidFeatureValue.
Proof.
  intros Hf Hlen Hnp.
  rewrite (predict_dict (Some m) items _ Hf).
  rewrite (features_converted m features X Hlen Hnp).
  unfold make_prediction, call_predict, call_predict_proba.
  destruct (model_predict m X) as [e | [| y ys]];
    cbn [bind ret Monad_traced lift Py.index0 Monad_result raise caught fst snd];
    try (split; [eexists; reflexivity | discriminate]).
  destruct (model_predict_proba m) as [proba |];
    cbn [bind ret Monad_traced lift Py.index0 Monad_result raise caught fst snd];
    try (split; [eexists; reflexivity | discriminate]).
  destruct (proba X) as [e | [| row rows]];
    cbn [bind ret Monad_traced lift Py.index0 Monad_result raise caught fst snd];
    try (split; [eexists; reflexivity | discriminate]).
  destruct (Py.max row) as [e | p];
    cbn [bind ret Monad_traced lift Py.index0 Monad_result raise caught fst snd];
    split; try (eexists; reflexivity); discriminate.
Qed.

End Handler.

(** ** Request validation *)

Lemma str_of_nat_read_back n :
  NilEmpty.uint_of_string (Py.str_of_nat n) = Some (Nat.to_uint n).
Proof. apply NilEmpty.usu. Qed.

(** C6. A features list whose length is not 8 is answered with status 400
    and the message "Expected 8 features, got <length>" (kind
    WrongFeatureCount), whatever the model handle and the conversion, and
    no call is made on the classifier; the length can be read back from the
    message; a list of five elements gives "Expected 8 features, got 5". *)
Theorem wrong_feature_count np model items xs :
  Py.lookup "features" items = Some (Py.List xs) ->
  List.length xs <> 8%nat ->
  predict np model (inr (Py.Dict items)) =
    (error ("Expected 8 features, got " ++ Py.str_of_nat (List.length xs)) 400, [])
  /\ kind (fst (predict np model (inr (Py.Dict items)))) = Some WrongFeatureCount
  /\ status (fst (predict np model (inr (Py.Dict items)))) = 400
  /\ NilEmpty.uint_of_string (Py.str_of_nat (List.length xs))
       = Some (Nat.to_uint (List.length xs))
  /\ (List.length xs = 5%nat ->
      fst (predict np model (inr (Py.Dict items))) =
        error "Expected 8 features, got 5" 400).
Proof.
  intros Hf Hn.
  assert (E : predict np model (inr (Py.Dict items)) =
    (error ("Expected 8 features, got " ++ Py.str_of_nat (List.length xs)) 400, [])).
  { rewrite (predict_dict np model items _ Hf).
    rewrite (features_wrong_count np model _ (List.length xs)); auto. }
  rewrite E. repeat split.
  - apply str_of_nat_read_back.
  - intros H5. rewrite H5. reflexivity.
Qed.

Lemma wrong_feature_count_witness :
  predict Sample.np_array_reshape None (Sample.payload Sample.five) =
    (error "Expected 8 features, got 5" 400, [])
  /\ kind (fst (predict Sample.np_array_reshape None (Sample.payload Sample.five)))
       = Some WrongFeatureCount.
Proof.
  destruct (wrong_feature_count Sample.np_array_reshape None
              [("features", Sample.five)]
              [Py.Int 1; Py.Int 2; Py.Int 3; Py.Int 4; Py.Int 5])
    as (H1 & H2 & _).
  - reflexivity.
  - cbn. lia.
  - split; [exact H1 | exact H2].
Defined.

(** C7, as stated, fails: a JSON number as the whole payload, and a
    features value that is a number, are answered 500 "Server error: ..."
    by the outer handler, and a features value that is an object is
    answered with the count message. *)
Lemma malformed_request_cex :
  predict Sample.np_array_reshape (Some Sample.forest) (inr (Py.Int 5)) =
    (error "Server error: argument of type 'int' is not iterable" 500, [])
  /\ predict Sample.np_array_reshape (Some Sample.forest) (Sample.payload (Py.Int 5)) =
    (error "Server error: object of type 'int' has no len()" 500, [])
  /\ predict Sample.np_array_reshape (Some Sample.forest)
       (Sample.payload (Py.Dict [("radius_mean", Py.Int 1)])) =
    (error "Expected 8 features, got 1" 400, [])
  /\ kind (error "Server error: argument of type 'int' is not iterable" 500) = None
  /\ kind (error "Server error: object of type 'int' has no len()" 500) = None
  /\ kind (error "Expected 8 features, got 1" 400) = Some WrongFeatureCount.
Proof. repeat split. Qed.

(** C7, amended. A payload that is empty (null, false, zero, an empty
    string, list or object) or that does not contain "features" is answered
    with status 400 and the message 'Invalid request. Expected "features"
    array.' (kind MalformedRequest), whatever the model handle, and no call
    is made on the classifier. *)
Theorem malformed_request np model data :
  Py.truthy data = false \/ Py.contains data "features" = inr false ->
  predict np model (inr data) = (error msg_invalid_request 400, [])
  /\ kind (fst (predict np model (inr data))) = Some MalformedRequest
  /\ status (fst (predict np model (inr data))) = 400.
Proof.
  intros H. rewrite (predict_malformed np model data H). repeat split.
Qed.

Lemma malformed_request_witness :
  predict Sample.np_array_reshape (Some Sample.forest)
    (inr (Py.Dict [("values", Sample.scenario_A)])) =
    (error msg_invalid_request 400, [])
  /\ predict Sample.np_array_reshape (Some Sample.forest) (inr Py.None_) =
    (error msg_invalid_request 400, []).
Proof.
  split.
  - apply (malformed_request Sample.np_array_reshape (Some Sample.forest)
             (Py.Dict [("values", Sample.scenario_A)])).
    right. reflexivity.
  - apply (malformed_request Sample.np_array_reshape (Some Sample.forest) Py.None_).
    left. reflexivity.
Defined.

(** C1, as stated, fails: a NaN or a string among eight values is
    converted and reaches the classifier, whose refusal is answered 500
    "Prediction error"; a one-element list holding a string is answered
    with the count message; and with no model loaded an infinite value is
    answered "Model not loaded". *)
Lemma invalid_feature_value_cex :
  predict Sample.np_array_reshape (Some Sample.forest) (Sample.payload Sample.with_nan) =
    (error "Prediction error: Input X contains NaN or infinity." 500,
     [CallPredict (FloatRow
        [Py.Finite (1799 # 100); Py.Finite (1038 # 100); Py.Finite (1228 # 10);
         Py.Finite (1001 # 1); Py.Finite (1184 # 10000); Py.Finite (2776 # 10000);
         Py.Finite (3001 # 10000); Py.NaN])])
  /\ kind (error "Prediction error: Input X contains NaN or infinity." 500)
       = Some InferenceFailure
  /\ predict Sample.np_array_reshape (Some Sample.forest) (Sample.payload Sample.with_text) =
    (error "Prediction error: could not convert string to float: 'abc'" 500,
     [CallPredict (ObjectArray Sample.with_text)])
  /\ predict Sample.np_array_reshape (Some Sample.forest)
       (Sample.payload (Py.List [Py.Str "abc"])) =
    (error "Expected 8 features, got 1" 400, [])
  /\ kind (error "Expected 8 features, got 1" 400) = Some WrongFeatureCount
  /\ predict Sample.np_array_reshape None (Sample.payload Sample.with_inf) =
    (error msg_model_not_loaded 500, [])
  /\ kind (error msg_model_not_loaded 500) = Some ModelUnavailable.
Proof. repeat split. Qed.

(** C1, amended. With a model loaded and a features value of length 8, if
    the conversion to an array raises, the request is answered with status
    400 and the message "Invalid feature values: " followed by the text of
    the exception (kind InvalidFeatureValue), and no call is made on the
    classifier. *)
Theorem invalid_feature_value np m items features e :
  Py.lookup "features" items = Some features ->
  Py.len features = inr 8%nat ->
  np features = inl e ->
  predict np (Some m) (inr (Py.Dict items)) =
    (error ("Invalid feature values: " ++ e) 400, [])
  /\ kind (fst (predict np (Some m) (inr (Py.Dict items)))) = Some InvalidFeatureValue
  /\ status (fst (predict np (Some m) (inr (Py.Dict items)))) = 400.
Proof.
  intros Hf Hlen Hnp.
  rewrite (predict_dict np (Some m) items _ Hf).
  rewrite (features_invalid np m features e Hlen Hnp).
  repeat split.
Qed.

Lemma invalid_feature_value_witness :
  predict Sample.np_array_reshape (Some Sample.forest) (Sample.payload Sample.ragged) =
    (error ("Invalid feature values: " ++ Sample.msg_inhomogeneous) 400, []).
Proof.
  apply (invalid_feature_value Sample.np_array_reshape Sample.forest
           [("features", Sample.ragged)] Sample.ragged
           Sample.msg_inhomogeneous);
    reflexivity.
Defined.

(** C2, as stated, fails: with no model loaded, an 8-element payload whose
    conversion raises is answered 500 "Model not loaded", not 400. *)
Lemma validation_order_cex :
  Sample.np_array_reshape Sample.ragged = inl Sample.msg_inhomogeneous
  /\ predict Sample.np_array_reshape None (Sample.payload Sample.ragged) =
    (error msg_model_not_loaded 500, [])
  /\ kind (error msg_model_not_loaded 500) = Some ModelUnavailable.
Proof. repeat split. Qed.

(** C2, amended. The checks run in the order: malformed request, feature
    count, model handle, conversion of the values; the first that fails
    answers, and none of them calls the classifier. A malformed request and
    a wrong count are answered 400 whatever the handle; an 8-element value
    whose conversion raises is answered 400 "Invalid feature values" when a
    model is loaded, and 500 "Model not loaded" when none is. *)
Theorem validation_order np model data :
  (Py.truthy data = false \/ Py.contains data "features" = inr false ->
     predict np model (inr data) = (error msg_invalid_request 400, []))
  /\ (forall items features n,
        data = Py.Dict items ->
        Py.lookup "features" items = Some features ->
        Py.len features = inr n ->
        (n <> 8%nat ->
           predict np model (inr data) =
             (error ("Expected 8 features, got " ++ Py.str_of_nat n) 400, []))
        /\ (n = 8%nat -> model = None ->
              predict np model (inr data) = (error msg_model_not_loaded 500, []))
        /\ (n = 8%nat -> forall m e, model = Some m -> np features = inl e ->
              predict np model (inr data) =
                (error ("Invalid feature values: " ++ e) 400, [])
              /\ kind (fst (predict np model (inr data))) = Some InvalidFeatureValue)).
Proof.
  split; [apply predict_malformed |].
  intros items features n -> Hf Hlen.
  rewrite (predict_dict np model items _ Hf). split; [| split].
  - intros Hn. rewrite (features_wrong_count np model _ n Hlen Hn). reflexivity.
  - intros -> ->. rewrite (features_absent np _ Hlen). reflexivity.
  - intros -> m e -> Hnp.
    rewrite (features_invalid np m features e Hlen Hnp). split; reflexivity.
Qed.

Lemma validation_order_witness :
  predict Sample.np_array_reshape (Some Sample.forest) (inr (Py.List [])) =
    (error msg_invalid_request 400, [])
  /\ predict Sample.np_array_reshape None (Sample.payload Sample.five) =
    (error "Expected 8 features, got 5" 400, [])
  /\ predict Sample.np_array_reshape None (Sample.payload Sample.ragged) =
    (error msg_model_not_loaded 500, [])
  /\ predict Sample.np_array_reshape (Some Sample.forest) (Sample.payload Sample.ragged) =
    (error ("Invalid feature values: " ++ Sample.msg_inhomogeneous) 400, []).
Proof.
  split; [| split; [| split]].
  - apply (validation_order Sample.np_array_reshape (Some Sample.forest) (Py.List [])).
    left. reflexivity.
  - destruct (proj2 (validation_order Sample.np_array_reshape None
                       (Py.Dict [("features", Sample.five)]))
                [("features", Sample.five)] Sample.five 5%nat
                eq_refl eq_refl eq_refl) as (Hcount & _ & _).
    apply Hcount. lia.
  - destruct (proj2 (validation_order Sample.np_array_reshape None
                       (Py.Dict [("features", Sample.ragged)]))
                [("features", Sample.ragged)] Sample.ragged 8%nat
                eq_refl eq_refl eq_refl) as (_ & Habsent & _).
    apply Habsent; reflexivity.
  - destruct (proj2 (validation_order Sample.np_array_reshape (Some Sample.forest)
                       (Py.Dict [("features", Sample.ragged)]))
                [("features", Sample.ragged)] Sample.ragged 8%nat
                eq_refl eq_refl eq_refl) as (_ & _ & Hinvalid).
    apply (Hinvalid eq_refl Sample.forest
             Sample.msg_inhomogeneous eq_refl eq_refl).
Defined.

(** ** The prediction engine *)

(** C5, as stated, fails: with no model loaded, a 5-element payload is
    answered 400 with the count message, not 500 "Model not loaded". *)
Lemma absent_model_cex :
  predict Sample.np_array_reshape None (Sample.payload Sample.five) =
    (error "Expected 8 features, got 5" 400, [])
  /\ kind (error "Expected 8 features, got 5" 400) = Some WrongFeatureCount
  /\ kind (error "Expected 8 features, got 5" 400) <> Some ModelUnavailable.
Proof. repeat split. discriminate. Qed.

(** C5, amended. With no model loaded, every call of the handler returns a
    response and calls the classifier at no point; a request whose features
    value has length 8 is answered 500 "Model not loaded. Please check
    server configuration." (kind ModelUnavailable), whether its values
    convert to numbers or not. *)
Theorem absent_model np get_json :
  (exists r, predict np None get_json = (r, []))
  /\ (forall items features,
        get_json = inr (Py.Dict items) ->
        Py.lookup "features" items = Some features ->
        Py.len features = inr 8%nat ->
        predict np None get_json = (error msg_model_not_loaded 500, [])
        /\ kind (fst (predict np None get_json)) = Some ModelUnavailable
        /\ status (fst (predict np None get_json)) = 500).
Proof.
  split.
  - exists (fst (predict np None get_json)).
    rewrite <- (predict_absent_trace np get_json).
    destruct (predict np None get_json); reflexivity.
  - intros items features -> Hf Hlen.
    rewrite (predict_dict np None items _ Hf), (features_absent np _ Hlen).
    repeat split.
Qed.

Lemma absent_model_witness :
  predict Sample.np_array_reshape None (Sample.payload Sample.scenario_A) =
    (error msg_model_not_loaded 500, [])
  /\ predict Sample.np_array_reshape None (Sample.payload Sample.with_nan) =
    (error msg_model_not_loaded 500, []).
Proof.
  split.
  - apply (proj2 (absent_model Sample.np_array_reshape (Sample.payload Sample.scenario_A))
             [("features", Sample.scenario_A)] Sample.scenario_A);
      reflexivity.
  - apply (proj2 (absent_model Sample.np_array_reshape (Sample.payload Sample.with_nan))
             [("features", Sample.with_nan)] Sample.with_nan);
      reflexivity.
Defined.

(** C3, as stated, fails: a classifier that returns label 2 is answered 200
    with diagnosis Benign and prediction 2; nothing is reported as a
    failure. *)
Lemma diagnosis_mapping_cex :
  fst (predict Sample.np_array_reshape (Some Sample.three_class)
         (Sample.payload Sample.scenario_A)) =
    (PredictionBody "Benign" (Py.Finite 100) 2, 200).
Proof. reflexivity. Qed.

(** C3, amended. Every successful prediction is a 200 response whose
    diagnosis is Malignant when the raw class index is 1 and Benign for
    every other raw class index, 0 included; no third diagnosis is
    produced. *)
Theorem diagnosis_mapping np model get_json d c p st t :
  predict np model get_json = (PredictionBody d c p, st, t) ->
  st = 200
  /\ d = diagnosis_of p
  /\ (p = 1 -> d = "Malignant")
  /\ (p = 0 -> d = "Benign")
  /\ (p <> 1 -> d = "Benign")
  /\ (d = "Malignant" \/ d = "Benign").
Proof.
  intros H.
  destruct (predict_cases np model get_json)
    as [(msg & st' & He) | (m & X & b & t' & _ & Hm & Hp)].
  - rewrite H in He. discriminate.
  - rewrite H in Hp. injection Hp as <- <- _.
    destruct (make_prediction_inv m X _ t' Hm) as (y & conf & Hb).
    injection Hb as -> _ ->.
    unfold diagnosis_of.
    split; [reflexivity |]. split; [reflexivity |].
    split; [intros ->; reflexivity |].
    split; [intros ->; reflexivity |].
    split.
    + intros Hne. apply Z.eqb_neq in Hne. rewrite Hne. reflexivity.
    + destruct (y =? 1); auto.
Qed.

Lemma diagnosis_mapping_witness :
  predict Sample.np_array_reshape (Some Sample.forest) (Sample.payload Sample.scenario_A) =
    (PredictionBody "Malignant" (Py.Finite 98) 1, 200,
     [CallPredict (FloatRow
        [Py.Finite (1799 # 100); Py.Finite (1038 # 100); Py.Finite (1228 # 10);
         Py.Finite (1001 # 1); Py.Finite (1184 # 10000); Py.Finite (2776 # 10000);
         Py.Finite (3001 # 10000); Py.Finite (2419 # 10000)]);
      CallPredictProba (FloatRow
        [Py.Finite (1799 # 100); Py.Finite (1038 # 100); Py.Finite (1228 # 10);
         Py.Finite (1001 # 1); Py.Finite (1184 # 10000); Py.Finite (2776 # 10000);
         Py.Finite (3001 # 10000); Py.Finite (2419 # 10000)])])
  /\ (200 = 200 /\ "Malignant" = diagnosis_of 1).
Proof.
  assert (E : predict Sample.np_array_reshape (Some Sample.forest)
                (Sample.payload Sample.scenario_A) =
    (PredictionBody "Malignant" (Py.Finite 98) 1, 200,
     [CallPredict (FloatRow
        [Py.Finite (1799 # 100); Py.Finite (1038 # 100); Py.Finite (1228 # 10);
         Py.Finite (1001 # 1); Py.Finite (1184 # 10000); Py.Finite (2776 # 10000);
         Py.Finite (3001 # 10000); Py.Finite (2419 # 10000)]);
      CallPredictProba (FloatRow
        [Py.Finite (1799 # 100); Py.Finite (1038 # 100); Py.Finite (1228 # 10);
         Py.Finite (1001 # 1); Py.Finite (1184 # 10000); Py.Finite (2776 # 10000);
         Py.Finite (3001 # 10000); Py.Finite (2419 # 10000)])]))
    by reflexivity.
  split; [exact E |].
  destruct (diagnosis_mapping _ _ _ _ _ _ _ _ E) as (H1 & H2 & _).
  split; [exact H1 | exact H2].
Defined.

Section Confidence.

Local Open Scope Q_scope.

(** A product between two integers that binary64 holds exactly is rounded
    to 2 places without leaving their interval. *)
Lemma confidence_between (lo hi : Z) (q : Q) :
  Py.rounded (inject_Z lo) == inject_Z lo ->
  Py.rounded (inject_Z hi) == inject_Z hi ->
  - 2 ^ 1024 < inject_Z lo ->
  inject_Z hi < 2 ^ 1024 ->
  inject_Z lo <= q <= inject_Z hi ->
  exists x c,
    Py.binary64 q = Py.Finite x
    /\ Py.round_float (Py.binary64 q) 2 = Py.Finite c
    /\ inject_Z lo <= c <= inject_Z hi.
Proof.
  intros Hlo Hhi Hl Hh Hq.
  destruct (binary64_between _ _ q Hlo Hhi Hl Hh Hq) as (x & Ex & Hx1 & Hx2).
  exists x, (Py.round x 2). rewrite Ex. split; [reflexivity |].
  split; [reflexivity |]. split.
  - apply round_lower. exact Hx1.
  - apply round_upper. exact Hx2.
Qed.

Lemma round_float_finite (x : Q) :
  exists k : Z,
    Py.round_float (Py.Finite x) 2 = Py.Finite (Py.round x 2)
    /\ Py.round x 2 == k # 100
    /\ x - (1 # 200) <= Py.round x 2 <= x + (1 # 200).
Proof.
  exists (Py.round_half_even (x * 100)). split; [reflexivity |].
  split; [apply round2_hundredths | apply round2_near].
Qed.

(** C4, as stated, fails. The product with 100 is a binary64 product: for
    the probability 0.50005 (the binary64 number nearest to it) the
    response says 50.01, where 100 times the probability, rounded to 2
    places, is 50.00. And nothing keeps the confidence in [0, 100]: a
    probability method that reports 1.5 is answered with confidence 150. *)
Lemma confidence_value_cex :
  fst (predict Sample.np_array_reshape (Some Sample.near_half)
         (Sample.payload Sample.scenario_A)) =
    jsonify (PredictionBody "Malignant" (Py.Finite (5001 # 100)) 1)
  /\ Py.round (Sample.p_near_half * 100) 2 = 50
  /\ fst (predict Sample.np_array_reshape (Some Sample.overconfident)
            (Sample.payload Sample.scenario_A)) =
    jsonify (PredictionBody "Malignant" (Py.Finite 150) 1).
Proof. split; [| split]; vm_compute; reflexivity. Qed.

(** C4, amended. For a request that reaches a loaded classifier which
    returns a label: without a probability method the confidence is
    exactly 100; with one, the confidence is the binary64 product of the
    largest entry of the probability row and 100, rounded to 2 decimal
    places: when that product is finite, a whole number of hundredths
    within 0.005 of it. When the entries of the row are probabilities, in
    [0, 1], the product is within 2^-47 of 100 times the largest entry and
    the confidence lies in [0, 100]. *)
Theorem confidence_value np m items features X y ys :
  Py.lookup "features" items = Some features ->
  Py.len features = inr 8%nat ->
  np features = inr X ->
  model_predict m X = inr (y :: ys) ->
  (model_predict_proba m = None ->
     fst (predict np (Some m) (inr (Py.Dict items))) =
       jsonify (PredictionBody (diagnosis_of y) (Py.Finite 100) y))
  /\ (forall proba row rows,
        model_predict_proba m = Some proba ->
        proba X = inr (row :: rows) ->
        row <> [] ->
        exists p conf,
          In p row /\ Forall (fun x => x <= p) row
          /\ fst (predict np (Some m) (inr (Py.Dict items))) =
               jsonify (PredictionBody (diagnosis_of y) conf y)
          /\ conf = Py.round_float (Py.binary64 (p * 100)) 2
          /\ (forall x,
                Py.binary64 (p * 100) = Py.Finite x ->
                exists c (k : Z),
                  conf = Py.Finite c /\ c == k # 100
                  /\ x - (1 # 200) <= c <= x + (1 # 200))
          /\ (Forall (fun x => 0 <= x <= 1) row ->
              exists x c,
                Py.binary64 (p * 100) = Py.Finite x
                /\ p * 100 - (1 # 2 ^ 47) <= x <= p * 100 + (1 # 2 ^ 47)
                /\ conf = Py.Finite c
                /\ 0 <= c <= 100)).
Proof.
  intros Hf Hlen Hnp Hy.
  rewrite (predict_dict np (Some m) items _ Hf).
  rewrite (features_converted np m features X Hlen Hnp).
  split.
  - intros Hnone. rewrite (make_prediction_hard m X y ys Hy Hnone). reflexivity.
  - intros proba row rows Hsome Hrows Hrow.
    destruct (Py.max row) as [e | p] eqn:Hmax.
    { destruct row; [congruence | discriminate]. }
    exists p, (Py.round_float (Py.binary64 (p * 100)) 2).
    destruct (max_spec row p Hmax) as [Hin Hall].
    rewrite (make_prediction_proba m X y ys proba row rows p Hy Hsome Hrows Hmax).
    split; [exact Hin |]. split; [exact Hall |]. split; [reflexivity |].
    split; [reflexivity |]. split.
    + intros x Ex. rewrite Ex.
      destruct (round_float_finite x) as (k & E & Hk & Hnear).
      exists (Py.round x 2), k. split; [exact E |]. split; assumption.
    + intros H01. rewrite Forall_forall in H01. pose proof (H01 p Hin) as [Hp0 Hp1].
      assert (Hq : inject_Z 0 <= p * 100 <= inject_Z 100).
      { change (inject_Z 0) with 0. change (inject_Z 100) with 100. split; lra. }
      destruct (confidence_between 0 100 (p * 100) rounded_0 rounded_100
                  ltac:(reflexivity) ltac:(reflexivity) Hq)
        as (x & c & Ex & Ec & Hc).
      exists x, c. split; [exact Ex |]. split; [| split; [exact Ec | exact Hc]].
      apply binary64_error; [lra | lra | exact Ex].
Qed.

Lemma confidence_value_witness :
  fst (predict Sample.np_array_reshape (Some Sample.hard_forest)
         (Sample.payload Sample.scenario_A)) =
    jsonify (PredictionBody "Malignant" (Py.Finite 100) 1)
  /\ exists p conf c,
       In p Sample.malignant_row /\
       fst (predict Sample.np_array_reshape (Some Sample.forest)
              (Sample.payload Sample.scenario_A)) =
         jsonify (PredictionBody "Malignant" conf 1) /\
       conf = Py.Finite c /\ 0 <= c <= 100.
Proof.
  split.
  - apply (proj1 (confidence_value Sample.np_array_reshape Sample.hard_forest
                    [("features", Sample.scenario_A)] Sample.scenario_A _ 1%Z []
                    eq_refl eq_refl eq_refl eq_refl)).
    reflexivity.
  - destruct (proj2 (confidence_value Sample.np_array_reshape Sample.forest
                       [("features", Sample.scenario_A)] Sample.scenario_A _ 1%Z []
                       eq_refl eq_refl eq_refl eq_refl)
                _ Sample.malignant_row [] eq_refl eq_refl)
      as (p & conf & Hin & _ & Hresp & _ & _ & Hbound).
    + discriminate.
    + destruct Hbound as (x & c & _ & _ & Ec & Hc).
      * repeat constructor; vm_compute; discriminate.
      * exists p, conf, c. split; [exact Hin |]. split; [exact Hresp |].
        split; [exact Ec | exact Hc].
Defined.

(** C10. When the classifier reports a row of two probabilities that are
    not negative and sum to 1, the confidence of the response is at least
    50 (and at most 100). *)
Theorem confidence_at_least_half np m items features X y ys proba p0 p1 rows :
  Py.lookup "features" items = Some features ->
  Py.len features = inr 8%nat ->
  np features = inr X ->
  model_predict m X = inr (y :: ys) ->
  model_predict_proba m = Some proba ->
  proba X = inr ([p0; p1] :: rows) ->
  0 <= p0 -> 0 <= p1 -> p0 + p1 == 1 ->
  exists conf,
    fst (predict np (Some m) (inr (Py.Dict items))) =
      jsonify (PredictionBody (diagnosis_of y) (Py.Finite conf) y)
    /\ 50 <= conf <= 100.
Proof.
  intros Hf Hlen Hnp Hy Hsome Hrows H0 H1 Hsum.
  rewrite (predict_dict np (Some m) items _ Hf).
  rewrite (features_converted np m features X Hlen Hnp).
  destruct (Py.max [p0; p1]) as [e | p] eqn:Hmax; [discriminate |].
  destruct (max_spec _ p Hmax) as [Hin Hall].
  rewrite (make_prediction_proba m X y ys proba _ rows p Hy Hsome Hrows Hmax).
  inversion Hall as [| ? ? Hp0 Hall']; subst.
  inversion Hall' as [| ? ? Hp1 _]; subst.
  assert (Hp : p <= 1).
  { destruct Hin as [<- | [<- | []]]; lra. }
  assert (Hq : inject_Z 50 <= p * 100 <= inject_Z 100).
  { change (inject_Z 50) with 50. change (inject_Z 100) with 100. split; lra. }
  destruct (confidence_between 50 100 (p * 100) rounded_50 rounded_100
              ltac:(reflexivity) ltac:(reflexivity) Hq)
    as (x & c & _ & Ec & Hc).
  exists c. rewrite Ec. split; [reflexivity | exact Hc].
Qed.

Lemma confidence_at_least_half_witness :
  exists conf,
    fst (predict Sample.np_array_reshape (Some Sample.near_half)
           (Sample.payload Sample.scenario_A)) =
      jsonify (PredictionBody "Malignant" (Py.Finite conf) 1)
    /\ 50 <= conf <= 100.
Proof.
  apply (confidence_at_least_half Sample.np_array_reshape Sample.near_half
           [("features", Sample.scenario_A)] Sample.scenario_A _ 1%Z []
           _ (1 - Sample.p_near_half) Sample.p_near_half []
           eq_refl eq_refl eq_refl eq_refl eq_refl eq_refl).
  - vm_compute. discriminate.
  - vm_compute. discriminate.
  - reflexivity.
Defined.

End Confidence.

(** ** Start-up and the life of the process *)

Lemma resolves_functional h a b : resolves h a -> resolves h b -> a = b.
Proof.
  intros Ha Hb.
  destruct Ha as [a P L | a P F L | P F | ea Fa];
    destruct Hb as [b P' L' | b P' F' L' | P' F' | eb Fb];
    try congruence;
    repeat match goal with
           | H : load_fails _ _ |- _ => destruct H
           end;
    congruence.
Qed.

(** On a console that accepts the three messages, the import ends and
    yields the outcome of the resolver. *)
Lemma load_model_resolves h :
  (forall d, print h (line d) = inr tt) ->
  exists r, load_model h = inr r /\ resolves h r.
Proof.
  intros Hprint. unfold load_model, load_body.
  destruct (path_exists h MODEL_PATH) as [e | [|]] eqn:P;
    cbn [bind ret Monad_result].
  - rewrite Hprint. eexists. split; [reflexivity |].
    apply resolve_failed. apply primary_check_fails; assumption.
  - destruct (joblib_load h MODEL_PATH) as [e | m] eqn:L;
      cbn [bind ret Monad_result]; rewrite Hprint; eexists; (split; [reflexivity |]).
    + apply resolve_failed. apply primary_load_fails; assumption.
    + apply resolve_primary; assumption.
  - destruct (path_exists h root_model) as [e | [|]] eqn:F;
      cbn [bind ret Monad_result].
    + rewrite Hprint. eexists. split; [reflexivity |].
      apply resolve_failed. apply fallback_check_fails; assumption.
    + destruct (joblib_load h root_model) as [e | m] eqn:L;
        cbn [bind ret Monad_result]; rewrite Hprint; eexists; (split; [reflexivity |]).
      * apply resolve_failed. apply fallback_load_fails; assumption.
      * apply resolve_fallback; assumption.
    + rewrite Hprint. eexists. split; [reflexivity |].
      apply resolve_missing; assumption.
Qed.

(** Whatever the console does, an import that ends after a failed attempt,
    or without any artifact, leaves no model. *)
Lemma no_model_after_failure h model d :
  (path_exists h MODEL_PATH = inr false /\ path_exists h root_model = inr false)
  \/ (exists e, load_fails h e) ->
  load_model h = inr (model, d) ->
  model = None.
Proof.
  unfold load_model, load_body.
  intros [[P F] | [e [P | P L | P F | P F L]]];
    rewrite P; cbn [bind ret Monad_result];
    try rewrite F; try rewrite L; cbn [bind ret Monad_result];
    repeat match goal with
           | |- context [print h ?text] =>
               destruct (print h text) as [? | []]; cbn [bind ret Monad_result]
           end;
    intros E; try discriminate; injection E as <- _; reflexivity.
Qed.

(** C8. The code breaks the claim when [print] raises. On a standard
    output whose encoding has none of the glyphs of the messages, with no
    artifact at either location: the [print] of line 32 raises inside the [try], the
    [print] of line 35 raises inside the [except] block, and the exception
    leaves the module: the process does not start and serves nothing. With
    a sound artifact at the primary location the same happens after the
    artifact was loaded. *)
Theorem load_model_print_failure :
  load_model Sample.bare_cp1252 =
    inl "'charmap' codec can't encode character '\u2717' in position 0: character maps to <undefined>"
  /\ load_model Sample.sound_cp1252 =
    inl "'charmap' codec can't encode character '\u2717' in position 0: character maps to <undefined>"
  /\ joblib_load Sample.sound_cp1252 MODEL_PATH = inr (Some Sample.forest)
  /\ forall np rs,
       run np Sample.bare_cp1252 rs =
         inl "'charmap' codec can't encode character '\u2717' in position 0: character maps to <undefined>".
Proof. repeat split. Qed.

Section Serving.

Variable np_array_reshape : Py.value -> result ndarray.

(** No request changes the global [model]. *)
Lemma handle_keeps_model model r :
  fst (handle np_array_reshape model r) = model.
Proof. destruct r; reflexivity. Qed.

Lemma serve_nth model rs :
  forall i r,
    nth_error rs i = Some r ->
    nth_error (serve np_array_reshape model rs) i =
      Some (snd (handle np_array_reshape model r)).
Proof.
  induction rs as [| r0 rest IH]; intros i r Hi.
  - destruct i; discriminate.
  - cbn [serve].
    pose proof (handle_keeps_model model r0) as Hk.
    destruct (handle np_array_reshape model r0) as [model' out] eqn:E.
    cbn [fst] in Hk. subst model'.
    destruct i as [| i].
    + cbn in Hi. injection Hi as <-. cbn. rewrite E. reflexivity.
    + cbn in Hi. cbn. apply IH. exact Hi.
Qed.

End Serving.

(** ** Repeated requests *)

Section Repeated.

Variable np_array_reshape : Py.value -> result ndarray.

Local Ltac step :=
  cbn [bind ret Monad_acting Monad_result Monad_traced lift lift_on caught
       Py.index0 raise negb fst snd].

(** On a classifier without state the handler with state is the handler
    of the sections above. *)
Lemma predict_on_of_classifier (c : Classifier) get_json :
  predict_on np_array_reshape (Some (of_classifier c)) tt get_json =
    (predict np_array_reshape (Some c) get_json, tt).
Proof.
  unfold predict_on, predict_body_on, predict, predict_body.
  destruct get_json as [e | data]; step; [reflexivity |].
  destruct (Py.truthy data); step; [| reflexivity].
  destruct (Py.contains data "features") as [e | [|]]; step; try reflexivity.
  destruct (Py.getitem data "features") as [e | features]; step; [reflexivity |].
  unfold predict_features_on, predict_features.
  destruct (Py.len features) as [e | n]; step; [reflexivity |].
  destruct (Nat.eqb n 8); step; [| reflexivity].
  destruct (np_array_reshape features) as [e | X]; step; [reflexivity |].
  unfold make_prediction_on, make_prediction, call_predict_on, call_predict,
    call_predict_proba_on, call_predict_proba, of_classifier.
  cbn [estimator_predict estimator_predict_proba]. step.
  destruct (model_predict c X) as [e | [| y ys]]; step; try reflexivity.
  destruct (model_predict_proba c) as [proba |]; step; [| reflexivity].
  destruct (proba X) as [e | [| row rows]]; step; try reflexivity.
  destruct (Py.max row) as [e | p]; step; reflexivity.
Qed.

(** The response to a request does not depend on the state the object is
    in, when the answers of its methods do not. *)
Lemma predict_on_repeatable S (est : Estimator S) :
  repeatable est ->
  forall s s' get_json,
    fst (predict_on np_array_reshape (Some est) s get_json) =
    fst (predict_on np_array_reshape (Some est) s' get_json).
Proof.
  intros [Hpredict Hproba] s s' get_json.
  unfold predict_on, predict_body_on.
  destruct get_json as [e | data]; step; [reflexivity |].
  destruct (Py.truthy data); step; [| reflexivity].
  destruct (Py.contains data "features") as [e | [|]]; step; try reflexivity.
  destruct (Py.getitem data "features") as [e | features]; step; [reflexivity |].
  unfold predict_features_on.
  destruct (Py.len features) as [e | n]; step; [reflexivity |].
  destruct (Nat.eqb n 8); step; [| reflexivity].
  destruct (np_array_reshape features) as [e | X]; step; [reflexivity |].
  unfold make_prediction_on, call_predict_on, call_predict_proba_on. step.
  pose proof (Hpredict s s' X) as Hp.
  destruct (estimator_predict est s X) as [r1 s1].
  destruct (estimator_predict est s' X) as [r2 s2].
  cbn [fst] in Hp. subst r2.
  destruct r1 as [e | [| y ys]]; step; try reflexivity.
  destruct (estimator_predict_proba est) as [proba |]; step; [| reflexivity].
  pose proof (Hproba s1 s2 X) as Hq.
  destruct (proba s1 X) as [q1 s1'].
  destruct (proba s2 X) as [q2 s2'].
  cbn [fst] in Hq. subst q2.
  destruct q1 as [e | [| row rows]]; step; try reflexivity.
  destruct (Py.max row) as [e | p]; step; reflexivity.
Qed.

Lemma serve_on_nth S (model : option (Estimator S)) rs :
  forall s i r,
    nth_error rs i = Some r ->
    exists s',
      nth_error (serve_on np_array_reshape model s rs) i =
        Some (fst (handle_on np_array_reshape model s' r)).
Proof.
  induction rs as [| r0 rest IH]; intros s i r Hi.
  - destruct i; discriminate.
  - cbn [serve_on].
    destruct (handle_on np_array_reshape model s r0) as [out s1] eqn:E.
    destruct i as [| i].
    + cbn in Hi. injection Hi as <-. exists s. cbn. rewrite E. reflexivity.
    + cbn in Hi. cbn. apply IH. exact Hi.
Qed.

End Repeated.




(** * Further properties of the code *)

(** ** The shape of every response *)

Section Shape.

Variable np_array_reshape : Py.value -> result ndarray.

(** Where a request leaves the handler of [/api/predict]. *)
Lemma predict_exits model get_json :
  (exists e, get_json = inl e /\
     predict np_array_reshape model get_json = (error ("Server error: " ++ e) 500, []))
  \/ (exists data, get_json = inr data /\
      ((Py.truthy data = false \/ Py.contains data "features" = inr false) /\
         predict np_array_reshape model get_json = (error msg_invalid_request 400, [])
       \/ Py.truthy data = true /\
          ((exists e, Py.contains data "features" = inl e /\
              predict np_array_reshape model get_json =
                (error ("Server error: " ++ e) 500, []))
           \/ Py.contains data "features" = inr true /\
              ((exists e, Py.getitem data "features" = inl e /\
                  predict np_array_reshape model get_json =
                    (error ("Server error: " ++ e) 500, []))
               \/ (exists features, Py.getitem data "features" = inr features /\
                   predict np_array_reshape model get_json =
                     caught (predict_features np_array_reshape model features)))))).
Proof.
  unfold predict, predict_body.
  destruct get_json as [e | data]; cbn [bind ret Monad_traced lift].
  { left. exists e. split; reflexivity. }
  right. exists data. split; [reflexivity |].
  destruct (Py.truthy data); cbn [negb].
  2: { left. split; [left; reflexivity | reflexivity]. }
  destruct (Py.contains data "features") as [e | [|]];
    cbn [bind ret Monad_result Monad_traced lift negb caught].
  - right. split; [reflexivity |]. left. exists e. split; reflexivity.
  - right. split; [reflexivity |]. right. split; [reflexivity |].
    destruct (Py.getitem data "features") as [e | features];
      cbn [bind ret Monad_result Monad_traced lift negb caught].
    + left. exists e. split; reflexivity.
    + right. exists features. split; [reflexivity |].
      destruct (predict_features np_array_reshape model features) as [[e | r] t];
        reflexivity.
  - left. split; [right; reflexivity | reflexivity].
Qed.

(** Where the features leave the handler once they are taken from the
    request. *)
Lemma features_exits model features :
  (exists e, Py.len features = inl e /\
     predict_features np_array_reshape model features = (inl e, []))
  \/ (exists n, Py.len features = inr n /\ n <> 8%nat /\
      predict_features np_array_reshape model features =
        (inr (error ("Expected 8 features, got " ++ Py.str_of_nat n) 400), []))
  \/ (Py.len features = inr 8%nat /\
      (model = None /\
         predict_features np_array_reshape model features =
           (inr (error msg_model_not_loaded 500), [])
       \/ exists m, model = Some m /\
          ((exists e, np_array_reshape features = inl e /\
              predict_features np_array_reshape model features =
                (inr (error ("Invalid feature values: " ++ e) 400), []))
           \/ (exists X, np_array_reshape features = inr X /\
               predict_features np_array_reshape model features =
                 match make_prediction m X with
                 | (inr b, t) => (inr (jsonify b), t)
                 | (inl e, t) => (inr (error ("Prediction error: " ++ e) 500), t)
                 end)))).
Proof.
  destruct (Py.len features) as [e | n] eqn:Hlen.
  { left. exists e. split; [reflexivity |]. apply features_len_raises. exact Hlen. }
  right. destruct (Nat.eq_dec n 8) as [-> | Hn].
  - right. split; [reflexivity |].
    destruct model as [m |].
    + right. exists m. split; [reflexivity |].
      destruct (np_array_reshape features) as [e | X] eqn:Hnp.
      * left. exists e. split; [reflexivity |]. apply features_invalid; assumption.
      * right. exists X. split; [reflexivity |]. apply features_converted; assumption.
    + left. split; [reflexivity |]. apply features_absent. exact Hlen.
  - left. exists n. split; [reflexivity |]. split; [exact Hn |].
    apply features_wrong_count; assumption.
Qed.

(** What the inner block does with the classifier. *)
Lemma make_prediction_exits m X :
  (exists e, make_prediction m X = (inl e, [CallPredict X]) /\
     (model_predict m X = inl e \/ model_predict m X = inr []))
  \/ (exists y ys, model_predict m X = inr (y :: ys) /\
      (model_predict_proba m = None /\
         make_prediction m X =
           (inr (PredictionBody (diagnosis_of y) (Py.Finite 100) y), [CallPredict X])
       \/ exists proba, model_predict_proba m = Some proba /\
          ((exists e, make_prediction m X = (inl e, [CallPredict X; CallPredictProba X]) /\
              (proba X = inl e \/ proba X = inr [] \/ exists rows, proba X = inr ([] :: rows)))
           \/ (exists row rows p, proba X = inr (row :: rows) /\ Py.max row = inr p /\
               make_prediction m X =
                 (inr (PredictionBody (diagnosis_of y)
                         (Py.round_float (Py.binary64 (p * 100)) 2) y),
                  [CallPredict X; CallPredictProba X]))))).
Proof.
  unfold make_prediction, call_predict, call_predict_proba.
  destruct (model_predict m X) as [e | [| y ys]];
    cbn [bind ret Monad_traced lift Py.index0 Monad_result raise].
  - left. eexists. split; [reflexivity | auto].
  - left. eexists. split; [reflexivity | auto].
  - right. exists y, ys. split; [reflexivity |].
    destruct (model_predict_proba m) as [proba |];
      cbn [bind ret Monad_traced lift Py.index0 Monad_result raise].
    + right. exists proba. split; [reflexivity |].
      destruct (proba X) as [e | [| row rows]];
        cbn [bind ret Monad_traced lift Py.index0 Monad_result raise].
      * left. eexists. split; [reflexivity | auto].
      * left. eexists. split; [reflexivity | auto].
      * destruct row as [| x row].
        -- left. eexists. split; [reflexivity |]. right. right. exists rows. reflexivity.
        -- right. eexists (x :: row), rows, _. split; [reflexivity |].
           split; reflexivity.
    + left. split; reflexivity.
Qed.

End Shape.

Local Ltac request_exits np model get_json E :=
  destruct (predict_exits np model get_json)
    as [(?e & ?Hgj & E)
       | (?data & ?Hgj &
          [(?Hmalformed & E)
          | (?Htruthy &
             [(?e & ?Hcontains & E)
             | (?Hcontains &
                [(?e & ?Hgetitem & E) | (?features & ?Hgetitem & E)])])])].

Local Ltac features_cases np model features E :=
  let F := fresh "F" in
  destruct (features_exits np model features)
    as [(?e & ?Hlen & F)
       | [(?n & ?Hlen & ?Hcount & F)
         | (?Hlen &
            [(?Hmodel & F)
            | (?m & ?Hmodel &
               [(?e & ?Hnp & F) | (?X & ?Hnp & F)])])]];
  rewrite F in E; cbn [caught] in E; clear F.

Local Ltac classifier_cases m X E :=
  let G := fresh "G" in
  destruct (make_prediction_exits m X)
    as [(?e & G & ?Hlabels)
       | (?y & ?ys & ?Hlabels &
          [(?Hhard & G)
          | (?proba & ?Hproba &
             [(?e & G & ?Hrows)
             | (?row & ?rows & ?p & ?Hrows & ?Hmax & G)])])];
  rewrite G in E; clear G.

(** X1. Every response of [/api/predict] is of one of three sorts: a
    prediction with status 200, made after at least one call on the
    classifier; an error with status 400 of kind MalformedRequest,
    WrongFeatureCount or InvalidFeatureValue, made without any call; or an
    error with status 500, which is "Model not loaded" or "Server error"
    without any call, or "Prediction error" after a call. *)
Theorem response_status_cases np model get_json :
  let out := predict np model get_json in
  (exists d c p, fst out = (PredictionBody d c p, 200) /\ snd out <> [])
  \/ (exists msg, fst out = error msg 400 /\ snd out = [] /\
      (kind (fst out) = Some MalformedRequest
       \/ kind (fst out) = Some WrongFeatureCount
       \/ kind (fst out) = Some InvalidFeatureValue))
  \/ (exists msg, fst out = error msg 500 /\
      (kind (fst out) = Some ModelUnavailable /\ snd out = []
       \/ kind (fst out) = Some InferenceFailure /\ snd out <> []
       \/ kind (fst out) = None /\ snd out = [])).
Proof.
  cbv zeta.
  assert (Hserver : forall e,
    predict np model get_json = (error ("Server error: " ++ e) 500, []) ->
    exists msg, fst (predict np model get_json) = error msg 500 /\
      (kind (fst (predict np model get_json)) = Some ModelUnavailable /\
         snd (predict np model get_json) = []
       \/ kind (fst (predict np model get_json)) = Some InferenceFailure /\
          snd (predict np model get_json) <> []
       \/ kind (fst (predict np model get_json)) = None /\
          snd (predict np model get_json) = [])).
  { intros e E. rewrite E. eexists. split; [reflexivity |].
    right. right. split; reflexivity. }
  request_exits np model get_json E.
  - right. right. exact (Hserver _ E).
  - right. left. rewrite E. eexists. split; [reflexivity |].
    split; [reflexivity |]. left. reflexivity.
  - right. right. exact (Hserver _ E).
  - right. right. exact (Hserver _ E).
  - features_cases np model features E.
    + right. right. exact (Hserver _ E).
    + right. left. rewrite E. eexists. split; [reflexivity |].
      split; [reflexivity |]. right. left. reflexivity.
    + right. right. rewrite E. eexists. split; [reflexivity |].
      left. split; reflexivity.
    + right. left. rewrite E. eexists. split; [reflexivity |].
      split; [reflexivity |]. right. right. reflexivity.
    + classifier_cases m X E; rewrite E; cbn [fst snd].
      * right. right. eexists. split; [reflexivity |].
        right. left. split; [reflexivity | discriminate].
      * left. do 3 eexists. split; [reflexivity | discriminate].
      * right. right. eexists. split; [reflexivity |].
        right. left. split; [reflexivity | discriminate].
      * left. do 3 eexists. split; [reflexivity | discriminate].
Qed.

(** X2. The calls a request makes on the classifier: none; or [predict]
    alone; or [predict] followed by [predict_proba]. Both are called on the
    array converted from the "features" entry of the request, and a model
    is then loaded. *)
Theorem classifier_call_protocol np model get_json :
  snd (predict np model get_json) = []
  \/ exists data features X m,
       get_json = inr data
       /\ Py.getitem data "features" = inr features
       /\ np features = inr X
       /\ model = Some m
       /\ (snd (predict np model get_json) = [CallPredict X]
           \/ model_predict_proba m <> None /\
              snd (predict np model get_json) = [CallPredict X; CallPredictProba X]).
Proof.
  request_exits np model get_json E; try (left; rewrite E; reflexivity).
  features_cases np model features E; try (left; rewrite E; reflexivity).
  right. exists data, features, X, m.
  repeat (split; [assumption |]).
  classifier_cases m X E; rewrite E; cbn [snd]; try (left; reflexivity).
  - right. split; [congruence | reflexivity].
  - right. split; [congruence | reflexivity].
Qed.

(** X3. A prediction is only ever answered for a request that carries a
    "features" value of length 8, with a model loaded, after the value was
    converted and the classifier returned a label for it: the [prediction]
    of the response is that label, the [diagnosis] is read off it, and the
    status is 200. *)
Theorem prediction_provenance np model get_json d c p st t :
  predict np model get_json = (PredictionBody d c p, st, t) ->
  exists data features X m ys,
    get_json = inr data
    /\ Py.getitem data "features" = inr features
    /\ Py.len features = inr 8%nat
    /\ model = Some m
    /\ np features = inr X
    /\ model_predict m X = inr (p :: ys)
    /\ d = diagnosis_of p
    /\ st = 200.
Proof.
  intros H.
  request_exits np model get_json E; try (rewrite E in H; discriminate).
  features_cases np model features E; try (rewrite E in H; discriminate).
  exists data, features, X, m.
  classifier_cases m X E; rewrite E in H; try discriminate;
    injection H as <- _ <- <- _; exists ys; repeat split; assumption.
Qed.

Lemma prediction_provenance_witness :
  exists data features X m ys,
    Sample.payload Sample.scenario_A = inr data
    /\ Py.getitem data "features" = inr features
    /\ Py.len features = inr 8%nat
    /\ Some Sample.forest = Some m
    /\ Sample.np_array_reshape features = inr X
    /\ model_predict m X = inr (1 :: ys)
    /\ "Malignant" = diagnosis_of 1
    /\ 200 = 200.
Proof.
  apply (prediction_provenance Sample.np_array_reshape (Some Sample.forest)
           (Sample.payload Sample.scenario_A) "Malignant" (Py.Finite 98) 1 200
           (snd (predict Sample.np_array_reshape (Some Sample.forest)
                   (Sample.payload Sample.scenario_A)))).
  reflexivity.
Defined.

(** ** What the outer handler catches *)

(** X4. A payload that is a JSON array holding the string "features", or a
    JSON string containing "features", passes the membership test of line
    66 and then fails at [data['features']]: it is answered 500 "Server
    error: ..." with the text of the TypeError, whatever the model. *)
Theorem membership_without_key np model :
  (forall xs,
     existsb (Py.is_str "features") xs = true ->
     predict np model (inr (Py.List xs)) =
       (error "Server error: list indices must be integers or slices, not str" 500, []))
  /\ (forall s,
        Py.substring_of "features" s = true ->
        predict np model (inr (Py.Str s)) =
          (error "Server error: string indices must be integers, not 'str'" 500, [])).
Proof.
  split.
  - intros xs Hin. unfold predict, predict_body.
    cbn [bind ret Monad_traced Monad_result lift Py.truthy Py.contains].
    destruct xs as [| x xs]; [discriminate |].
    cbn [negb]. rewrite Hin. reflexivity.
  - intros s Hin. unfold predict, predict_body.
    cbn [bind ret Monad_traced Monad_result lift Py.truthy Py.contains].
    destruct s as [| a s]; [discriminate |].
    cbn [String.eqb negb]. rewrite Hin. reflexivity.
Qed.

Lemma membership_without_key_witness :
  predict Sample.np_array_reshape (Some Sample.forest)
    (inr (Py.List [Py.Int 1; Py.Str "features"])) =
    (error "Server error: list indices must be integers or slices, not str" 500, [])
  /\ predict Sample.np_array_reshape None (inr (Py.Str "the features")) =
    (error "Server error: string indices must be integers, not 'str'" 500, []).
Proof.
  split.
  - apply (proj1 (membership_without_key Sample.np_array_reshape (Some Sample.forest))).
    reflexivity.
  - apply (proj2 (membership_without_key Sample.np_array_reshape None)).
    reflexivity.
Defined.

(** X5. A "features" value that has no length (null, a boolean, a number)
    makes [len(features)] raise: the request is answered 500 "Server error:
    object of type '...' has no len()", whatever the model, and neither the
    count message nor "Model not loaded" is given. *)
Theorem unsized_features np model items features :
  Py.lookup "features" items = Some features ->
  match features with
  | Py.List _ | Py.Str _ | Py.Dict _ => False
  | _ => True
  end ->
  predict np model (inr (Py.Dict items)) =
    (error ("Server error: object of type '" ++ Py.type_name features
              ++ "' has no len()") 500, [])
  /\ kind (fst (predict np model (inr (Py.Dict items)))) = None.
Proof.
  intros Hf Hunsized.
  rewrite (predict_dict np model items _ Hf).
  rewrite (features_len_raises np model features
             ("object of type '" ++ Py.type_name features ++ "' has no len()")).
  - split; reflexivity.
  - destruct features; try contradiction; reflexivity.
Qed.

Lemma unsized_features_witness :
  predict Sample.np_array_reshape (Some Sample.forest) (Sample.payload Py.None_) =
    (error "Server error: object of type 'NoneType' has no len()" 500, [])
  /\ predict Sample.np_array_reshape None
       (Sample.payload (Py.Float (Py.Finite (35 # 10)))) =
    (error "Server error: object of type 'float' has no len()" 500, []).
Proof.
  split.
  - apply (unsized_features Sample.np_array_reshape (Some Sample.forest)
             [("features", Py.None_)] Py.None_ eq_refl I).
  - apply (unsized_features Sample.np_array_reshape None
             [("features", Py.Float (Py.Finite (35 # 10)))]
             (Py.Float (Py.Finite (35 # 10))) eq_refl I).
Defined.

(** X6. A "Server error" response is decided by the request alone: it has
    status 500, no call was made on the classifier, and the same request
    gets the same response with any model and any array conversion. The
    outer handler never reports an exception of numpy or of the
    classifier. *)
Theorem server_error_from_request np model get_json msg st t :
  predict np model get_json = (error msg st, t) ->
  starts_with "Server error: " msg = true ->
  st = 500 /\ t = []
  /\ forall np' model', predict np' model' get_json = (error msg 500, []).
Proof.
  intros H Hmsg.
  request_exits np model get_json E; [rewrite E in H .. |].
  - injection H as <- <- <-. split; [reflexivity |]. split; [reflexivity |].
    intros np' model'. subst get_json. reflexivity.
  - injection H as <- <- <-. discriminate.
  - injection H as <- <- <-. split; [reflexivity |]. split; [reflexivity |].
    intros np' model'. subst get_json.
    unfold predict, predict_body. cbn [bind ret Monad_traced lift].
    rewrite Htruthy. cbn [negb]. rewrite Hcontains. reflexivity.
  - injection H as <- <- <-. split; [reflexivity |]. split; [reflexivity |].
    intros np' model'. subst get_json.
    unfold predict, predict_body. cbn [bind ret Monad_traced lift].
    rewrite Htruthy. cbn [negb]. rewrite Hcontains.
    cbn [bind ret Monad_result Monad_traced lift negb]. rewrite Hgetitem. reflexivity.
  - features_cases np model features E; [rewrite E in H .. |].
    + injection H as <- <- <-. split; [reflexivity |]. split; [reflexivity |].
      intros np' model'. subst get_json.
      unfold predict, predict_body. cbn [bind ret Monad_traced lift].
      rewrite Htruthy. cbn [negb]. rewrite Hcontains.
      cbn [bind ret Monad_result Monad_traced lift negb]. rewrite Hgetitem.
      cbn [bind ret Monad_result Monad_traced lift negb].
      rewrite (features_len_raises np' model' features e Hlen). reflexivity.
    + injection H as <- <- <-. discriminate.
    + injection H as <- <- <-. discriminate.
    + injection H as <- <- <-. discriminate.
    + classifier_cases m X E; rewrite E in H; try discriminate;
        injection H as <- <- <-; discriminate.
Qed.

Lemma server_error_from_request_witness :
  500 = 500 /\ @nil call = []
  /\ forall np' model',
       predict np' model' (inr (Py.Bool true)) =
         (error "Server error: argument of type 'bool' is not iterable" 500, []).
Proof.
  apply (server_error_from_request Sample.np_array_reshape (Some Sample.forest)
           (inr (Py.Bool true))
           "Server error: argument of type 'bool' is not iterable" 500 []);
    reflexivity.
Defined.

(** A request either leaves the handler before the features are measured,
    with a response that no model and no conversion can change, or it
    reaches the length check with its "features" value. *)
Lemma predict_before_features get_json :
  (exists r, forall np model, predict np model get_json = (r, []))
  \/ (exists data features,
        get_json = inr data /\ Py.getitem data "features" = inr features /\
        forall np model,
          predict np model get_json = caught (predict_features np model features)).
Proof.
  destruct get_json as [e | data].
  { left. eexists. intros np model. reflexivity. }
  destruct (Py.truthy data) eqn:Ht.
  2: { left. eexists. intros np model. apply predict_malformed. left. exact Ht. }
  destruct (Py.contains data "features") as [e | [|]] eqn:Hc.
  - left. eexists. intros np model. unfold predict, predict_body.
    cbn [bind ret Monad_traced lift]. rewrite Ht. cbn [negb]. rewrite Hc. reflexivity.
  - destruct (Py.getitem data "features") as [e | features] eqn:Hg.
    + left. eexists. intros np model. unfold predict, predict_body.
      cbn [bind ret Monad_traced lift]. rewrite Ht. cbn [negb]. rewrite Hc.
      cbn [bind ret Monad_result Monad_traced lift negb]. rewrite Hg. reflexivity.
    + right. exists data, features. split; [reflexivity |]. split; [exact Hg |].
      intros np model. unfold predict, predict_body.
      cbn [bind ret Monad_traced lift]. rewrite Ht. cbn [negb]. rewrite Hc.
      cbn [bind ret Monad_result Monad_traced lift negb]. rewrite Hg.
      cbn [bind ret Monad_result Monad_traced lift negb].
      destruct (predict_features np model features) as [[e | r] t]; reflexivity.
  - left. eexists. intros np model. apply predict_malformed. right. exact Hc.
Qed.

(** X7. The model matters only to requests that pass the count check: a
    request that, with no model loaded, gets any answer other than "Model
    not loaded" gets that same answer, without any call on the classifier,
    with every model and every array conversion. *)
Theorem rejection_before_model np get_json :
  kind (fst (predict np None get_json)) <> Some ModelUnavailable ->
  forall np' model,
    predict np' model get_json = predict np None get_json
    /\ snd (predict np' model get_json) = [].
Proof.
  intros Hkind np' model.
  destruct (predict_before_features get_json)
    as [(r & Hall) | (data & features & -> & Hg & Hall)].
  - rewrite (Hall np' model), (Hall np None). split; reflexivity.
  - rewrite (Hall np None) in Hkind. rewrite (Hall np' model), (Hall np None).
    destruct (Py.len features) as [e | n] eqn:Hlen.
    + rewrite !(features_len_raises _ _ features e Hlen). split; reflexivity.
    + destruct (Nat.eq_dec n 8) as [-> | Hn].
      * rewrite (features_absent np features Hlen) in Hkind.
        exfalso. apply Hkind. reflexivity.
      * rewrite !(features_wrong_count _ _ features n Hlen Hn). split; reflexivity.
Qed.

Lemma rejection_before_model_witness :
  predict Sample.np_array_reshape (Some Sample.forest) (Sample.payload Sample.five) =
    predict Sample.np_array_reshape None (Sample.payload Sample.five)
  /\ snd (predict Sample.np_array_reshape (Some Sample.forest)
            (Sample.payload Sample.five)) = [].
Proof.
  apply (rejection_before_model Sample.np_array_reshape (Sample.payload Sample.five)).
  cbn. discriminate.
Defined.

(** X8. Only the "features" entry of the payload is read: two JSON objects
    with the same "features" value get the same response and make the same
    calls, whatever other keys they carry and wherever the entry stands. *)
Theorem other_keys_ignored np model items items' features :
  Py.lookup "features" items = Some features ->
  Py.lookup "features" items' = Some features ->
  predict np model (inr (Py.Dict items)) = predict np model (inr (Py.Dict items')).
Proof.
  intros H H'.
  rewrite (predict_dict np model items _ H), (predict_dict np model items' _ H').
  reflexivity.
Qed.

Lemma other_keys_ignored_witness :
  predict Sample.np_array_reshape (Some Sample.forest)
    (inr (Py.Dict [("patient", Py.Str "A-17"); ("features", Sample.scenario_A)])) =
  predict Sample.np_array_reshape (Some Sample.forest)
    (inr (Py.Dict [("features", Sample.scenario_A); ("debug", Py.Bool true)])).
Proof.
  apply (other_keys_ignored Sample.np_array_reshape (Some Sample.forest)
           [("patient", Py.Str "A-17"); ("features", Sample.scenario_A)]
           [("features", Sample.scenario_A); ("debug", Py.Bool true)]
           Sample.scenario_A);
    reflexivity.
Defined.

(** ** Failures inside the classifier *)

(** X9. For a request that reaches a loaded classifier: when
    [model.predict] raises, or returns no label, the answer is 500
    "Prediction error: ..." with the text of the exception, and
    [predict_proba] is not called; when the label is there but
    [predict_proba] raises, returns no row or an empty row, the answer is
    again 500 "Prediction error: ...": the label alone is never reported. *)
Theorem inference_failure np m items features X :
  Py.lookup "features" items = Some features ->
  Py.len features = inr 8%nat ->
  np features = inr X ->
  (forall e,
     model_predict m X = inl e ->
     predict np (Some m) (inr (Py.Dict items)) =
       (error ("Prediction error: " ++ e) 500, [CallPredict X]))
  /\ (model_predict m X = inr [] ->
      predict np (Some m) (inr (Py.Dict items)) =
        (error "Prediction error: index 0 is out of bounds for axis 0 with size 0" 500,
         [CallPredict X]))
  /\ (forall y ys proba,
        model_predict m X = inr (y :: ys) ->
        model_predict_proba m = Some proba ->
        (forall e,
           proba X = inl e ->
           predict np (Some m) (inr (Py.Dict items)) =
             (error ("Prediction error: " ++ e) 500,
              [CallPredict X; CallPredictProba X]))
        /\ (proba X = inr [] ->
            predict np (Some m) (inr (Py.Dict items)) =
              (error "Prediction error: index 0 is out of bounds for axis 0 with size 0"
                 500, [CallPredict X; CallPredictProba X]))
        /\ (forall rows,
              proba X = inr ([] :: rows) ->
              predict np (Some m) (inr (Py.Dict items)) =
                (error "Prediction error: max() arg is an empty sequence" 500,
                 [CallPredict X; CallPredictProba X]))).
Proof.
  intros Hf Hlen Hnp.
  rewrite (predict_dict np (Some m) items _ Hf).
  rewrite (features_converted np m features X Hlen Hnp).
  unfold make_prediction, call_predict, call_predict_proba.
  split; [| split].
  - intros e He. rewrite He. reflexivity.
  - intros He. rewrite He. reflexivity.
  - intros y ys proba Hy Hp. rewrite Hy, Hp.
    split; [| split].
    + intros e He. rewrite He. reflexivity.
    + intros He. rewrite He. reflexivity.
    + intros rows He. rewrite He. reflexivity.
Qed.

Lemma inference_failure_witness :
  predict Sample.np_array_reshape (Some Sample.forest) (Sample.payload Sample.with_inf) =
    (error "Prediction error: Input X contains NaN or infinity." 500,
     [CallPredict (FloatRow
        [Py.Finite (1799 # 100); Py.Finite (1038 # 100); Py.Finite (1228 # 10);
         Py.Finite (1001 # 1); Py.Finite (1184 # 10000); Py.Finite (2776 # 10000);
         Py.PosInf; Py.Finite (2419 # 10000)])])
  /\ predict Sample.np_array_reshape (Some Sample.silent_proba)
       (Sample.payload Sample.scenario_A) =
    (error "Prediction error: index 0 is out of bounds for axis 0 with size 0" 500,
     [CallPredict (FloatRow
        [Py.Finite (1799 # 100); Py.Finite (1038 # 100); Py.Finite (1228 # 10);
         Py.Finite (1001 # 1); Py.Finite (1184 # 10000); Py.Finite (2776 # 10000);
         Py.Finite (3001 # 10000); Py.Finite (2419 # 10000)]);
      CallPredictProba (FloatRow
        [Py.Finite (1799 # 100); Py.Finite (1038 # 100); Py.Finite (1228 # 10);
         Py.Finite (1001 # 1); Py.Finite (1184 # 10000); Py.Finite (2776 # 10000);
         Py.Finite (3001 # 10000); Py.Finite (2419 # 10000)])]).
Proof.
  split.
  - apply (proj1 (inference_failure Sample.np_array_reshape Sample.forest
                    [("features", Sample.with_inf)] Sample.with_inf _
                    eq_refl eq_refl eq_refl)).
    reflexivity.
  - apply (proj1 (proj2 (proj2 (proj2
             (inference_failure Sample.np_array_reshape Sample.silent_proba
                [("features", Sample.scenario_A)] Sample.scenario_A _
                eq_refl eq_refl eq_refl))
             1 [] _ eq_refl eq_refl))).
    reflexivity.
Defined.

(** ** The confidence figure *)

Section ConfidenceReported.

Local Open Scope Q_scope.

Lemma binary64_posinf (x : Q) :
  Py.binary64 x = Py.PosInf -> 2 ^ 1024 <= Py.rounded x.
Proof.
  unfold Py.binary64. generalize (Py.rounded x) as r. intros r.
  destruct (Qle_bool (2 ^ 1024) r) eqn:E1.
  - intros _. apply Qle_bool_iff. exact E1.
  - destruct (Qle_bool r (- 2 ^ 1024)); discriminate.
Qed.

Lemma binary64_neginf (x : Q) :
  Py.binary64 x = Py.NegInf -> Py.rounded x <= - 2 ^ 1024.
Proof.
  unfold Py.binary64. generalize (Py.rounded x) as r. intros r.
  destruct (Qle_bool (2 ^ 1024) r); [discriminate |].
  destruct (Qle_bool r (- 2 ^ 1024)) eqn:E2; [| discriminate].
  intros _. apply Qle_bool_iff. exact E2.
Qed.

Lemma binary64_not_nan (x : Q) : Py.binary64 x <> Py.NaN.
Proof.
  unfold Py.binary64. generalize (Py.rounded x) as r. intros r.
  destruct (Qle_bool (2 ^ 1024) r); [discriminate |].
  destruct (Qle_bool r (- 2 ^ 1024)); discriminate.
Qed.

Lemma round_float_monotone (a b : Py.pyfloat) (ndigits : nat) :
  Py.float_le a b -> Py.float_le (Py.round_float a ndigits) (Py.round_float b ndigits).
Proof.
  destruct a as [x | | |], b as [y | | |]; cbn; auto.
  apply round_monotone.
Qed.

(** X10. The confidence of every prediction is a whole number of
    hundredths (at most two decimal places), or an infinity; it is never
    NaN. It is an infinity only when the probability method reported a row
    whose largest entry, times 100, is beyond the binary64 range. *)
Theorem confidence_two_decimals np model get_json d c p st t :
  predict np model get_json = (PredictionBody d c p, st, t) ->
  match c with
  | Py.Finite q => exists k : Z, q == k # 100
  | Py.NaN => False
  | Py.PosInf =>
      exists m X proba row rows top,
        model = Some m /\ model_predict_proba m = Some proba
        /\ proba X = inr (row :: rows) /\ Py.max row = inr top
        /\ 2 ^ 1024 <= Py.rounded (top * 100)
  | Py.NegInf =>
      exists m X proba row rows top,
        model = Some m /\ model_predict_proba m = Some proba
        /\ proba X = inr (row :: rows) /\ Py.max row = inr top
        /\ Py.rounded (top * 100) <= - 2 ^ 1024
  end.
Proof.
  intros H.
  request_exits np model get_json E; try (rewrite E in H; discriminate).
  features_cases np model features E; try (rewrite E in H; discriminate).
  classifier_cases m X E; rewrite E in H; try discriminate;
    injection H as _ <- _ _ _.
  - exists 10000%Z. reflexivity.
  - destruct (Py.binary64 (p0 * 100)) as [x | | |] eqn:Eb; cbn [Py.round_float].
    + eexists. apply round2_hundredths.
    + exact (binary64_not_nan _ Eb).
    + exists m, X, proba, row, rows, p0. repeat (split; [assumption |]).
      apply binary64_posinf. exact Eb.
    + exists m, X, proba, row, rows, p0. repeat (split; [assumption |]).
      apply binary64_neginf. exact Eb.
Qed.

Lemma confidence_two_decimals_witness :
  exists k : Z, 98 == k # 100.
Proof.
  apply (confidence_two_decimals Sample.np_array_reshape (Some Sample.forest)
           (Sample.payload Sample.scenario_A) "Malignant" (Py.Finite 98) 1 200
           (snd (predict Sample.np_array_reshape (Some Sample.forest)
                   (Sample.payload Sample.scenario_A)))).
  reflexivity.
Defined.

(** X11. When the classifier reports probabilities and the largest of the
    row lies in [0, 1], the confidence of the response differs from 100
    times that probability by at most 0.005 + 2^-47: the rounding to two
    places, on top of the rounding of the binary64 product. *)
Theorem confidence_rounding_error np m items features X y ys proba row rows p :
  Py.lookup "features" items = Some features ->
  Py.len features = inr 8%nat ->
  np features = inr X ->
  model_predict m X = inr (y :: ys) ->
  model_predict_proba m = Some proba ->
  proba X = inr (row :: rows) ->
  Py.max row = inr p ->
  0 <= p <= 1 ->
  exists conf,
    fst (predict np (Some m) (inr (Py.Dict items))) =
      jsonify (PredictionBody (diagnosis_of y) (Py.Finite conf) y)
    /\ p * 100 - (1 # 200) - (1 # 2 ^ 47) <= conf
    /\ conf <= p * 100 + (1 # 200) + (1 # 2 ^ 47).
Proof.
  intros Hf Hlen Hnp Hy Hsome Hrows Hmax [Hp0 Hp1].
  rewrite (predict_dict np (Some m) items _ Hf).
  rewrite (features_converted np m features X Hlen Hnp).
  rewrite (make_prediction_proba m X y ys proba row rows p Hy Hsome Hrows Hmax).
  assert (Hq : inject_Z 0 <= p * 100 <= inject_Z 100).
  { change (inject_Z 0) with 0. change (inject_Z 100) with 100. split; lra. }
  destruct (binary64_between _ _ (p * 100) rounded_0 rounded_100
              ltac:(reflexivity) ltac:(reflexivity) Hq) as (x & Ex & _).
  pose proof (binary64_error (p * 100) x ltac:(lra) ltac:(lra) Ex) as [He1 He2].
  pose proof (round2_near x) as [Hr1 Hr2].
  rewrite Ex. exists (Py.round x 2). split; [reflexivity |].
  set (w := 1 # 2 ^ 47) in *. split; lra.
Qed.

Lemma confidence_rounding_error_witness :
  exists conf,
    fst (predict Sample.np_array_reshape (Some Sample.near_half)
           (Sample.payload Sample.scenario_A)) =
      jsonify (PredictionBody "Malignant" (Py.Finite conf) 1)
    /\ Sample.p_near_half * 100 - (1 # 200) - (1 # 2 ^ 47) <= conf
    /\ conf <= Sample.p_near_half * 100 + (1 # 200) + (1 # 2 ^ 47).
Proof.
  apply (confidence_rounding_error Sample.np_array_reshape Sample.near_half
           [("features", Sample.scenario_A)] Sample.scenario_A _ 1%Z []
           _ [1 - Sample.p_near_half; Sample.p_near_half] [] Sample.p_near_half
           eq_refl eq_refl eq_refl eq_refl eq_refl eq_refl eq_refl).
  split; discriminate.
Defined.

(** X12. The confidence grows with the largest probability: of two
    predictions made from probability rows, the one whose largest
    probability is larger never has the smaller confidence. *)
Theorem confidence_monotone m1 X1 d1 c1 y1 t1 proba1 row1 rows1 p1
                            m2 X2 d2 c2 y2 t2 proba2 row2 rows2 p2 :
  make_prediction m1 X1 = (inr (PredictionBody d1 c1 y1), t1) ->
  model_predict_proba m1 = Some proba1 ->
  proba1 X1 = inr (row1 :: rows1) ->
  Py.max row1 = inr p1 ->
  make_prediction m2 X2 = (inr (PredictionBody d2 c2 y2), t2) ->
  model_predict_proba m2 = Some proba2 ->
  proba2 X2 = inr (row2 :: rows2) ->
  Py.max row2 = inr p2 ->
  p1 <= p2 ->
  Py.float_le c1 c2.
Proof.
  intros E1 Hs1 Hr1 Hm1 E2 Hs2 Hr2 Hm2 Hle.
  assert (Hc1 : c1 = Py.round_float (Py.binary64 (p1 * 100)) 2).
  { destruct (model_predict m1 X1) as [e | [| y ys]] eqn:Hy;
      try (unfold make_prediction, call_predict in E1; rewrite Hy in E1; discriminate).
    rewrite (make_prediction_proba m1 X1 y ys proba1 row1 rows1 p1 Hy Hs1 Hr1 Hm1) in E1.
    injection E1 as _ <- _ _. reflexivity. }
  assert (Hc2 : c2 = Py.round_float (Py.binary64 (p2 * 100)) 2).
  { destruct (model_predict m2 X2) as [e | [| y ys]] eqn:Hy;
      try (unfold make_prediction, call_predict in E2; rewrite Hy in E2; discriminate).
    rewrite (make_prediction_proba m2 X2 y ys proba2 row2 rows2 p2 Hy Hs2 Hr2 Hm2) in E2.
    injection E2 as _ <- _ _. reflexivity. }
  subst c1 c2. apply round_float_monotone, binary64_monotone.
  apply Qmult_le_compat_r; [exact Hle | discriminate].
Qed.

Lemma confidence_monotone_witness : Py.float_le (Py.Finite 90) (Py.Finite 98).
Proof.
  apply (confidence_monotone
           Sample.forest (FloatRow [Py.Finite 12]) "Benign" (Py.Finite 90) 0%Z
           [CallPredict (FloatRow [Py.Finite 12]);
            CallPredictProba (FloatRow [Py.Finite 12])]
           (fun X => row <- Sample.check_array X ;;
                     ret [if (Sample.label row =? 1)%Z
                          then Sample.malignant_row else Sample.benign_row])
           Sample.benign_row [] (Sample.double (9 # 10))
           Sample.forest (FloatRow [Py.Finite 17]) "Malignant" (Py.Finite 98) 1%Z
           [CallPredict (FloatRow [Py.Finite 17]);
            CallPredictProba (FloatRow [Py.Finite 17])]
           (fun X => row <- Sample.check_array X ;;
                     ret [if (Sample.label row =? 1)%Z
                          then Sample.malignant_row else Sample.benign_row])
           Sample.malignant_row [] (Sample.double (98 # 100)));
    try reflexivity.
  vm_compute. discriminate.
Defined.

End ConfidenceReported.

(** ** The count check and the advertised feature names *)

(** X13. For a JSON object with a "features" entry, the count message is
    given exactly when the value has a length and that length differs from
    the number of feature names advertised by [/api/info]. The check is on
    the length alone: a string of 8 characters or an object of 8 entries
    passes it as a list of 8 values does. *)
Theorem count_matches_feature_names np model items features :
  Py.lookup "features" items = Some features ->
  kind (fst (predict np model (inr (Py.Dict items)))) = Some WrongFeatureCount
  <-> exists n, Py.len features = inr n /\ n <> List.length FEATURE_NAMES.
Proof.
  intros Hf. rewrite (predict_dict np model items _ Hf).
  change (List.length FEATURE_NAMES) with 8%nat.
  split.
  - intros Hk.
    features_cases np model features Hk; try discriminate.
    + exists n. split; assumption.
    + classifier_cases m X Hk; discriminate.
  - intros (n & Hlen & Hn).
    rewrite (features_wrong_count np model features n Hlen Hn). reflexivity.
Qed.

Lemma count_matches_feature_names_witness :
  kind (fst (predict Sample.np_array_reshape None
               (Sample.payload (Py.Str "abcdefgh")))) <> Some WrongFeatureCount
  /\ kind (fst (predict Sample.np_array_reshape None
                  (Sample.payload (Py.Str "abc")))) = Some WrongFeatureCount.
Proof.
  split.
  - intros Hk.
    destruct (proj1 (count_matches_feature_names Sample.np_array_reshape None
                       [("features", Py.Str "abcdefgh")] (Py.Str "abcdefgh") eq_refl) Hk)
      as (n & Hlen & Hn).
    apply Hn. injection Hlen as <-. reflexivity.
  - apply (proj2 (count_matches_feature_names Sample.np_array_reshape None
                    [("features", Py.Str "abc")] (Py.Str "abc") eq_refl)).
    exists 3%nat. split; [reflexivity | discriminate].
Defined.

(** ** From start-up to the responses *)

Section Process.

Variable np_array_reshape : Py.value -> result ndarray.

Lemma absent_response get_json :
  snd (predict np_array_reshape None get_json) = []
  /\ (status (fst (predict np_array_reshape None get_json)) = 400
      \/ status (fst (predict np_array_reshape None get_json)) = 500).
Proof.
  split; [apply predict_absent_trace |].
  request_exits np_array_reshape (@None Classifier) get_json E;
    try (rewrite E; cbn; auto; fail).
  features_cases np_array_reshape (@None Classifier) features E;
    try (rewrite E; cbn; auto; fail).
  discriminate.
Qed.

Lemma loaded_response m get_json :
  kind (fst (predict np_array_reshape (Some m) get_json)) <> Some ModelUnavailable.
Proof.
  request_exits np_array_reshape (Some m) get_json E;
    try (rewrite E; discriminate).
  features_cases np_array_reshape (Some m) features E;
    try (rewrite E; discriminate).
  injection Hmodel as Hm. subst m0.
  classifier_cases m X E; rewrite E; discriminate.
Qed.

End Process.

(** X14. When both artifact files are missing, or a check or the
    deserialization raises at start-up (a primary artifact that does not
    unpickle included, even beside a sound fallback), a process that starts
    answers every request of its run without ever calling a classifier:
    [/api/info] reports [model_loaded] false and every [/api/predict]
    request gets status 400 or 500, never a prediction. The process does
    start when the console accepts the messages. *)
Theorem run_without_model np h rs :
  (path_exists h MODEL_PATH = inr false /\ path_exists h root_model = inr false)
  \/ (exists e, load_fails h e) ->
  (forall outs,
     run np h rs = inr outs ->
     Forall2
       (fun r out =>
          snd out = [] /\
          match r with
          | GetInfo =>
              fst out =
                jsonify (InfoBody "Breast Cancer Prediction API" "1.0.0"
                           FEATURE_NAMES false)
          | PostPredict _ => status (fst out) = 400 \/ status (fst out) = 500
          end)
       rs outs)
  /\ ((forall d, print h (line d) = inr tt) -> exists outs, run np h rs = inr outs).
Proof.
  intros Hhost. split.
  - intros outs Hrun. unfold run in Hrun.
    destruct (load_model h) as [e | [model d]] eqn:Hload; [discriminate |].
    cbn [bind ret Monad_result fst] in Hrun. injection Hrun as <-.
    rewrite (no_model_after_failure h model d Hhost Hload).
    clear. induction rs as [| r rest IH]; [constructor |].
    cbn [serve]. destruct r as [| get_json]; cbn [handle].
    + constructor; [split; reflexivity | exact IH].
    + constructor; [exact (absent_response np get_json) | exact IH].
  - intros Hprint. destruct (load_model_resolves h Hprint) as (r & Hload & _).
    unfold run. rewrite Hload. eexists. reflexivity.
Qed.

Lemma run_without_model_witness :
  exists outs,
    run Sample.np_array_reshape Sample.corrupt_primary
      [PostPredict (Sample.payload Sample.scenario_A); GetInfo] = inr outs
    /\ Forall2
         (fun r out =>
            snd out = [] /\
            match r with
            | GetInfo =>
                fst out =
                  jsonify (InfoBody "Breast Cancer Prediction API" "1.0.0"
                             FEATURE_NAMES false)
            | PostPredict _ => status (fst out) = 400 \/ status (fst out) = 500
            end)
         [PostPredict (Sample.payload Sample.scenario_A); GetInfo] outs.
Proof.
  assert (Hhost :
    (path_exists Sample.corrupt_primary MODEL_PATH = inr false /\
     path_exists Sample.corrupt_primary root_model = inr false)
    \/ (exists e, load_fails Sample.corrupt_primary e)).
  { right. exists "invalid load key". apply primary_load_fails; reflexivity. }
  destruct (run_without_model Sample.np_array_reshape Sample.corrupt_primary
              [PostPredict (Sample.payload Sample.scenario_A); GetInfo] Hhost)
    as [Hall Hstarts].
  destruct (Hstarts (fun d => eq_refl)) as [outs Hrun].
  exists outs. split; [exact Hrun | exact (Hall outs Hrun)].
Defined.

(** X15. [/api/info] tells the truth about [/api/predict]: in any run, if
    an info response says [model_loaded] is true then no prediction request
    of the run is answered "Model not loaded"; if it says false then no
    prediction request is answered 200 and none calls a classifier. *)
Theorem info_agrees_with_predict np model rs i j get_json name version names loaded t :
  nth_error rs i = Some GetInfo ->
  nth_error (serve np model rs) i = Some (jsonify (InfoBody name version names loaded), t) ->
  nth_error rs j = Some (PostPredict get_json) ->
  exists out,
    nth_error (serve np model rs) j = Some out
    /\ (loaded = true -> kind (fst out) <> Some ModelUnavailable)
    /\ (loaded = false -> status (fst out) <> 200 /\ snd out = []).
Proof.
  intros Hi Hinfo Hj.
  rewrite (serve_nth np model rs i _ Hi) in Hinfo.
  cbn [handle snd info jsonify] in Hinfo. injection Hinfo as _ _ _ <- _.
  rewrite (serve_nth np model rs j _ Hj). cbn [handle snd].
  eexists. split; [reflexivity |].
  destruct model as [m |]; cbn [is_loaded]; split; try discriminate.
  - intros _. apply loaded_response.
  - intros _. destruct (absent_response np get_json) as [Ht [Hs | Hs]];
      rewrite Hs; split; (discriminate || exact Ht).
Qed.

Lemma info_agrees_with_predict_witness :
  exists out,
    nth_error (serve Sample.np_array_reshape None
                 [GetInfo; PostPredict (Sample.payload Sample.scenario_A)]) 1 = Some out
    /\ (false = true -> kind (fst out) <> Some ModelUnavailable)
    /\ (false = false -> status (fst out) <> 200 /\ snd out = []).
Proof.
  apply (info_agrees_with_predict Sample.np_array_reshape None
           [GetInfo; PostPredict (Sample.payload Sample.scenario_A)]
           0 1 (Sample.payload Sample.scenario_A)
           "Breast Cancer Prediction API" "1.0.0" FEATURE_NAMES false []);
    reflexivity.
Defined.

(** X16. On a console that accepts the three messages, the import ends
    with the outcome of the resolver of the specification and no other:
    the artifact of the primary path when it exists, else the one of the
    fallback path, and no handle when both are missing or when a check or
    the deserialization raises, the exception being printed, not raised.
    The process then serves, and the first [/api/info] answers 200 with
    the feature names and [model_loaded] true exactly when the resolver
    yields a handle. *)
Theorem startup_resolves np h rs :
  (forall d, print h (line d) = inr tt) ->
  exists model d loaded outs,
    load_model h = inr (model, d)
    /\ resolves h (model, d)
    /\ (forall r, resolves h r -> r = (model, d))
    /\ run np h (GetInfo :: rs) =
         inr ((jsonify (InfoBody "Breast Cancer Prediction API" "1.0.0"
                          FEATURE_NAMES loaded), []) :: outs)
    /\ (loaded = true <-> exists c d', resolves h (Some c, d')).
Proof.
  intros Hprint.
  destruct (load_model_resolves h Hprint) as ([model d] & Hload & Hres).
  exists model, d, (is_loaded model), (serve np model rs).
  split; [exact Hload |]. split; [exact Hres |].
  split; [intros r Hr; exact (resolves_functional h _ _ Hr Hres) |].
  split; [unfold run; rewrite Hload; reflexivity |].
  split.
  - destruct model as [c |]; [| discriminate]. intros _. exists c, d. exact Hres.
  - intros (c & d' & Hc).
    pose proof (resolves_functional h _ _ Hc Hres) as E. injection E as <- _.
    reflexivity.
Qed.

Lemma startup_resolves_witness :
  exists model d loaded outs,
    load_model Sample.fallback_only = inr (model, d)
    /\ resolves Sample.fallback_only (model, d)
    /\ (forall r, resolves Sample.fallback_only r -> r = (model, d))
    /\ run Sample.np_array_reshape Sample.fallback_only [GetInfo] =
         inr ((jsonify (InfoBody "Breast Cancer Prediction API" "1.0.0"
                          FEATURE_NAMES loaded), []) :: outs)
    /\ (loaded = true <-> exists c d', resolves Sample.fallback_only (Some c, d')).
Proof.
  apply (startup_resolves Sample.np_array_reshape Sample.fallback_only []).
  intros d. reflexivity.
Defined.
